(** * Library catalogue and university roster: a shallow embedding

    The repository holds two small TypeScript programs: a library
    catalogue ([Library], [Book], [Author]) and a university roster
    ([University], [Group], [Person], [Teacher], [Student], [Course]).
    Both are embedded here as Rocq functions over records, and the
    properties of their documentation are stated and proved about these
    functions.

    Conventions of the embedding.
    - A JavaScript object is a record carrying the address it lives at
      (field [.._ref]); [===] and [Array.prototype.includes] on objects
      compare these addresses.  None of the methods modelled here
      mutates an object it only holds a reference to, so a record is a
      faithful snapshot of the object it stands for.
    - A method that mutates [this] takes the receiver and returns the
      receiver after the call together with the completion of the call.
    - A call completes normally with a value or abruptly with a thrown
      exception ([completion]).
    - Integer-valued numbers (identifiers, years, credits, capacities,
      array indices) are [Z]; where the program adds to them ([nextId++],
      [totalCredits += credits]) the sum is rounded as a double rounds
      it.  Scores are [number], an idealised model of the non-integer
      JavaScript numbers.
    - A string that the program searches or case-maps is the list of
      its UTF-16 code units, and the case-mapping built-ins of the host
      are parameters ([CaseMapping]).
    - A field that was never assigned reads as [undefined]: [None]. *)

From Stdlib Require Import ZArith List String Ascii Bool Lia QArith.
From Stdlib Require Import Permutation.
Import ListNotations.

Local Open Scope string_scope.
Local Open Scope list_scope.
Local Open Scope Z_scope.

(** ** JavaScript values and built-ins used by both programs *)

Module Js.

(** Thrown values: the built-in [TypeError] raised by a property access
    on [undefined], a plain [Error], and the two error classes that the
    programs declare. *)
Inductive exn : Type :=
| TypeError
| Error (message : string)
| LibraryError (message : string)
| UniversityError (message : string).

Inductive completion (A : Type) : Type :=
| Normal (value : A)
| Throw (e : exn).

Arguments Normal {A} value.
Arguments Throw {A} e.

Definition bind {A B : Type} (m : completion A) (k : A -> completion B)
  : completion B :=
  match m with
  | Normal a => k a
  | Throw e => Throw e
  end.

Definition isLibraryError {A : Type} (c : completion A) : Prop :=
  exists message, c = Throw (LibraryError message).

Definition isUniversityError {A : Type} (c : completion A) : Prop :=
  exists message, c = Throw (UniversityError message).

Definition isThrow {A : Type} (c : completion A) : Prop :=
  exists e, c = Throw e.

(** *** Strings that are searched or case-mapped

    A string whose contents the program inspects is the sequence of its
    UTF-16 code units.  (A string that is only compared for equality or
    concatenated, such as a role, a status or a message, is kept as a
    Rocq [string].) *)

Definition codeUnit : Type := N.

Definition text : Type := list codeUnit.

(** The text of a literal made of ASCII characters. *)
Definition str (s : string) : text :=
  map N_of_ascii (list_ascii_of_string s).

(** [===] on two strings: the same code units in the same order. *)
Fixpoint eqText (a b : text) : bool :=
  match a, b with
  | [], [] => true
  | c :: a', d :: b' => (c =? d)%N && eqText a' b'
  | _, _ => false
  end.

(** [sub] is what [s] starts with. *)
Fixpoint startsWith (s sub : text) : bool :=
  match sub, s with
  | [], _ => true
  | _ :: _, [] => false
  | c :: sub', d :: s' => (c =? d)%N && startsWith s' sub'
  end.

(** [String.prototype.includes]: [sub] occurs in [s] at some position. *)
Fixpoint includes (s sub : text) : bool :=
  startsWith s sub
  || match s with
     | [] => false
     | _ :: rest => includes rest sub
     end.

(** [String.prototype.toLowerCase] and
    [String.prototype.toLocaleUpperCase] are built-ins of the host:
    both follow the Unicode case tables, may change the length of a
    string, and the second depends on the locale of the host.  The
    programs are modelled for an arbitrary pair of such functions. *)
Class CaseMapping : Type := {
  toLowerCase : text -> text;
  toLocaleUpperCase : text -> text
}.

(** The case mapping of the letters A-Z and a-z, which leaves every
    other code unit as it is.  It is what the built-ins compute on
    ASCII text (for the upper-case map, in a locale without special
    rules for these letters) and serves to run the samples. *)
Definition asciiLower (c : codeUnit) : codeUnit :=
  if ((65 <=? c) && (c <=? 90))%N then (c + 32)%N else c.

Definition asciiUpper (c : codeUnit) : codeUnit :=
  if ((97 <=? c) && (c <=? 122))%N then (c - 32)%N else c.

Definition asciiCase : CaseMapping :=
  {| toLowerCase := map asciiLower; toLocaleUpperCase := map asciiUpper |}.

(** Truthiness of a string and of an integer-valued number. *)
Definition truthyString (s : text) : bool :=
  match s with
  | [] => false
  | _ :: _ => true
  end.

Definition truthyNumber (n : Z) : bool := negb (n =? 0).

(** *** Arrays *)

(** [Array.prototype.find] is [List.find]; [Array.prototype.filter] is
    [List.filter]; [push] appends one element at the end. *)
Definition push {A : Type} (xs : list A) (x : A) : list A := xs ++ [x].

(** [Array.prototype.findIndex]: the first index whose element satisfies
    the predicate, [-1] when there is none. *)
Fixpoint findIndexFrom {A : Type} (p : A -> bool) (xs : list A) (i : Z) : Z :=
  match xs with
  | [] => -1
  | x :: rest => if p x then i else findIndexFrom p rest (i + 1)
  end.

Definition findIndex {A : Type} (p : A -> bool) (xs : list A) : Z :=
  findIndexFrom p xs 0.

(** [Array.prototype.splice(start, 1)] for [0 <= start]: the element at
    [start], if any, is taken out; a negative [start] counts from the
    end of the array. *)
Definition splice1 {A : Type} (xs : list A) (start : Z) : list A :=
  let len := Z.of_nat (List.length xs) in
  let from := if start <? 0 then Z.max (len + start) 0 else Z.min start len in
  firstn (Z.to_nat from) xs ++ skipn (S (Z.to_nat from)) xs.

(** [ToInt32] and the bitwise complement [~] of an integer-valued number. *)
Definition toInt32 (n : Z) : Z := (n + 2 ^ 31) mod 2 ^ 32 - 2 ^ 31.

Definition bitNot (n : Z) : Z := Z.lnot (toInt32 n).

(** *** Scores

    A score is a JavaScript number that need not be an integer.  It is
    modelled by an exact rational or one of the three special values;
    rounding and the sign of zero are left out. *)
Inductive number : Type :=
| Finite (q : Q)
| PosInfinity
| NegInfinity
| NaN.

Definition isZeroQ (q : Q) : bool := Qeq_bool q 0.

Definition isNegQ (q : Q) : bool := negb (Qle_bool 0 q).

Definition numberOfNat (n : nat) : number := Finite (inject_Z (Z.of_nat n)).

Definition numberAdd (x y : number) : number :=
  match x, y with
  | NaN, _ | _, NaN => NaN
  | PosInfinity, NegInfinity | NegInfinity, PosInfinity => NaN
  | PosInfinity, _ | _, PosInfinity => PosInfinity
  | NegInfinity, _ | _, NegInfinity => NegInfinity
  | Finite a, Finite b => Finite (a + b)
  end.

Definition numberDiv (x y : number) : number :=
  match x, y with
  | NaN, _ | _, NaN => NaN
  | Finite a, Finite b =>
      if isZeroQ b then
        if isZeroQ a then NaN
        else if isNegQ a then NegInfinity else PosInfinity
      else Finite (a / b)
  | Finite _, _ => Finite 0
  | PosInfinity, Finite b => if isNegQ b then NegInfinity else PosInfinity
  | NegInfinity, Finite b => if isNegQ b then PosInfinity else NegInfinity
  | _, _ => NaN
  end.

(** *** Arithmetic on integer-valued numbers

    A number is a double.  The sum of two integer-valued doubles is
    their exact sum rounded to the nearest double, ties to the even
    significand: exact up to magnitude [2 ^ 53], a multiple of the
    spacing of the doubles beyond. *)
Definition roundDouble (z : Z) : Z :=
  let a := Z.abs z in
  if a <? 2 ^ 53 then z
  else
    let shift := Z.log2 a - 52 in
    let q := a / 2 ^ shift in
    let r := a mod 2 ^ shift in
    let half := 2 ^ (shift - 1) in
    let m := if r <? half then q
             else if half <? r then q + 1
             else if Z.even q then q else q + 1 in
    Z.sgn z * (m * 2 ^ shift).

(** [n++] leaves [n + 1] in the variable (and yields [n]). *)
Definition increment (n : Z) : Z := roundDouble (n + 1).

(** An integer-valued number, or one of the special values that sums
    of such numbers can produce. *)
Inductive intNumber : Type :=
| IntNum (z : Z)
| IntInfinity (negative : bool)
| IntNaN.

(** [x + y] on such numbers; a rounded sum of magnitude [2 ^ 1024] or
    more is an infinity. *)
Definition intPlus (x y : intNumber) : intNumber :=
  match x, y with
  | IntNaN, _ | _, IntNaN => IntNaN
  | IntInfinity s, IntInfinity s' => if Bool.eqb s s' then IntInfinity s else IntNaN
  | IntInfinity s, IntNum _ | IntNum _, IntInfinity s => IntInfinity s
  | IntNum a, IntNum b =>
      let r := roundDouble (a + b) in
      if 2 ^ 1024 <=? Z.abs r then IntInfinity (r <? 0) else IntNum r
  end.

End Js.

Import Js.

(** ** The library catalogue *)

Module Lib.

(** [type CriteriaBook]: every field is optional; an omitted field reads
    as [undefined]. *)
Record CriteriaBook : Type := {
  title : option text;
  genre : option text;
  year : option Z;
  authorName : option text
}.

(** [class Author] *)
Record Author : Type := {
  author_ref : nat;
  author_name : text;
  author_id : Z
}.

(** [class Book] *)
Record Book : Type := {
  book_ref : nat;
  book_title : text;
  book_id : Z;
  book_genre : text;
  book_year : Z;
  book_author : Author
}.

(** [class Library].  [books] and [authors] are declared without an
    initialiser, so they hold an array only after something assigned
    one to them. *)
Record Library : Type := {
  name : string;
  books : option (list Book);
  authors : option (list Author);
  maxBooks : Z
}.

(** [constructor(name, maxBooks)]: assigns [name] and [maxBooks] only. *)
Definition new_Library (name0 : string) (maxBooks0 : Z) : Library :=
  {| name := name0; books := None; authors := None; maxBooks := maxBooks0 |}.

Definition set_books (l : Library) (bs : list Book) : Library :=
  {| name := name l; books := Some bs; authors := authors l;
     maxBooks := maxBooks l |}.

Definition set_authors (l : Library) (xs : list Author) : Library :=
  {| name := name l; books := books l; authors := Some xs;
     maxBooks := maxBooks l |}.

(** Reading a property or calling a method of the value held by an
    array field: a [TypeError] when the field is [undefined]. *)
Definition deref {A : Type} (field : option (list A)) : completion (list A) :=
  match field with
  | Some xs => Normal xs
  | None => Throw TypeError
  end.

(** [this.books.includes(book)]: some element is the same object. *)
Definition includesBook (bs : list Book) (book : Book) : bool :=
  existsb (fun b => Nat.eqb (book_ref b) (book_ref book)) bs.

(** [addBook(book)] *)
Definition addBook (book : Book) (l : Library) : Library * completion unit :=
  match books l with
  | None => (l, Throw TypeError)
  | Some bs =>
      if includesBook bs book then
        (l, Throw (LibraryError "Book is already in the library"))
      else if Z.of_nat (List.length bs) >=? maxBooks l then
        (l, Throw (LibraryError "Storage of book is full"))
      else
        let l1 := set_books l (push bs book) in
        match authors l1 with
        | None => (l1, Throw TypeError)
        | Some xs => (set_authors l1 (push xs (book_author book)), Normal tt)
        end
  end.

(** [getBooks()]: hands out the field as it is. *)
Definition getBooks (l : Library) : completion (option (list Book)) :=
  Normal (books l).

(** [getBookById(id)] *)
Definition getBookById (id : Z) (l : Library) : completion (option Book) :=
  bind (deref (books l)) (fun bs =>
  Normal (find (fun book => book_id book =? id) bs)).

(** [getAuthors()] *)
Definition getAuthors (l : Library) : completion (option (list Author)) :=
  Normal (authors l).

(** [getAuthorById(id)] *)
Definition getAuthorById (id : Z) (l : Library) : completion (option Author) :=
  bind (deref (authors l)) (fun xs =>
  Normal (find (fun author => author_id author =? id) xs)).

(** The argument of [getBooksByAuthor]: [number | string]. *)
Inductive IdOrName : Type :=
| ById (id : Z)
| ByName (name : text).

(** [getBooksByAuthor(authorIdOrName)] *)
Definition getBooksByAuthor {cm : CaseMapping} (authorIdOrName : IdOrName)
  (l : Library) : completion (list Book) :=
  match authorIdOrName with
  | ById id =>
      bind (deref (books l)) (fun bs =>
      Normal (filter (fun book => author_id (book_author book) =? id) bs))
  | ByName nm =>
      bind (deref (books l)) (fun bs =>
      Normal (filter (fun book =>
                eqText (toLocaleUpperCase (author_name (book_author book)))
                       (toLocaleUpperCase nm)) bs))
  end.

(** [getAuthorByBookId(id)] *)
Definition getAuthorByBookId (id : Z) (l : Library) : completion (option Author) :=
  bind (getBookById id l) (fun found =>
  match found with
  | None => Throw (LibraryError "Havent this book")
  | Some book => getAuthorById (author_id (book_author book)) l
  end).

(** The four flags computed for one book inside [search]. *)
Definition matchesTitle {cm : CaseMapping} (c : CriteriaBook) (book : Book)
  : bool :=
  match title c with
  | Some t =>
      if truthyString t
      then includes (toLowerCase (book_title book)) (toLowerCase t)
      else false
  | None => false
  end.

Definition matchesGenre {cm : CaseMapping} (c : CriteriaBook) (book : Book)
  : bool :=
  match genre c with
  | Some g =>
      if truthyString g
      then includes (toLowerCase (book_genre book)) (toLowerCase g)
      else false
  | None => false
  end.

Definition matchesYear (c : CriteriaBook) (book : Book) : bool :=
  match year c with
  | Some y => if truthyNumber y then book_year book =? y else false
  | None => false
  end.

Definition matchesAuthor {cm : CaseMapping} (c : CriteriaBook) (book : Book)
  : bool :=
  match authorName c with
  | Some a =>
      if truthyString a
      then includes (toLowerCase (author_name (book_author book)))
                    (toLowerCase a)
      else false
  | None => false
  end.

(** [search(criteria)] *)
Definition search {cm : CaseMapping} (criteria : CriteriaBook) (l : Library)
  : completion (list Book) :=
  bind (deref (books l)) (fun bs =>
  Normal (filter (fun book =>
            matchesTitle criteria book || matchesGenre criteria book
            || matchesYear criteria book || matchesAuthor criteria book) bs)).

(** *** The sample data at the end of the file *)

Definition author1 : Author :=
  {| author_ref := 1; author_name := str "J.K. Rowling"; author_id := 1 |}.

Definition author2 : Author :=
  {| author_ref := 2; author_name := str "George R.R. Martin"; author_id := 2 |}.

Definition book1 : Book :=
  {| book_ref := 11; book_title := str "Harry Potter"; book_id := 1;
     book_genre := str "Fantasy"; book_year := 1997; book_author := author1 |}.

Definition book2 : Book :=
  {| book_ref := 12; book_title := str "Game of Thrones"; book_id := 2;
     book_genre := str "Fantasy"; book_year := 1996; book_author := author2 |}.

Definition book3 : Book :=
  {| book_ref := 13; book_title := str "A Clash of Kings"; book_id := 3;
     book_genre := str "War"; book_year := 1998; book_author := author2 |}.

(** [new Library("City Library", 100)] *)
Definition library : Library := new_Library "City Library" 100.

(** The same library once both array fields have been given an empty
    array, and after the three [addBook] calls of the sample. *)
Definition emptyLibrary : Library :=
  {| name := "City Library"; books := Some []; authors := Some [];
     maxBooks := 100 |}.

Definition filledLibrary : Library :=
  fst (addBook book3 (fst (addBook book2 (fst (addBook book1 emptyLibrary))))).

(** *** Constructors and the static id counters

    [Book.nextId] and [Author.nextId] are static fields, so they are
    state shared by all constructor calls; [lib_nextRef] is the next
    free address, which stands for the identity of the object that
    [new] creates. *)

(** [type BookInfo] *)
Record BookInfo : Type := {
  info_title : text;
  info_genre : text;
  info_year : Z;
  info_author : Author
}.

Record LibStatics : Type := {
  Book_nextId : Z;
  Author_nextId : Z;
  lib_nextRef : nat
}.

(** [static nextId = 1] in both classes.  The counters are numbers, so
    [nextId++] is a double-precision increment. *)
Definition initialLibStatics : LibStatics :=
  {| Book_nextId := 1; Author_nextId := 1; lib_nextRef := 0 |}.

(** [new Author(name)] *)
Definition new_Author (name0 : text) (st : LibStatics) : Author * LibStatics :=
  ({| author_ref := lib_nextRef st; author_name := name0;
      author_id := Author_nextId st |},
   {| Book_nextId := Book_nextId st;
      Author_nextId := increment (Author_nextId st);
      lib_nextRef := S (lib_nextRef st) |}).

(** [new Book(info)] *)
Definition new_Book (info : BookInfo) (st : LibStatics) : Book * LibStatics :=
  ({| book_ref := lib_nextRef st; book_title := info_title info;
      book_id := Book_nextId st; book_genre := info_genre info;
      book_year := info_year info; book_author := info_author info |},
   {| Book_nextId := increment (Book_nextId st);
      Author_nextId := Author_nextId st;
      lib_nextRef := S (lib_nextRef st) |}).

(** Successive [new Book(info)] calls, one per element, in order. *)
Fixpoint newBooks (infos : list BookInfo) (st : LibStatics)
  : list Book * LibStatics :=
  match infos with
  | [] => ([], st)
  | info :: rest =>
      let (b, st1) := new_Book info st in
      let (bs, st2) := newBooks rest st1 in
      (b :: bs, st2)
  end.

(** Successive [library.addBook(book)] calls, one per element, in
    order, by a caller that goes on after a failed call. *)
Definition addBooks (bs : list Book) (l : Library) : Library :=
  fold_left (fun acc b => fst (addBook b acc)) bs l.

End Lib.

(** ** The university roster *)

Module Uni.

(** [enum Role], [enum AcademicStatus]: string enumerations.  The fields
    they are stored in are declared [string], so the members are kept
    as the strings they stand for. *)
Definition Role_student : string := "student".
Definition Role_teacher : string := "teacher".

Definition AcademicStatus_active : string := "active".
Definition AcademicStatus_academicLeave : string := "academic leave".
Definition AcademicStatus_graduated : string := "graduated".
Definition AcademicStatus_expelled : string := "expelled".

(** A [Date], seen through [getFullYear], [getMonth] (0 to 11) and
    [getDate] (1 to 31), the only accessors the program calls. *)
Record Date : Type := {
  getFullYear : Z;
  getMonth : Z;
  getDate : Z
}.

Record ContactInfo : Type := {
  email : string;
  phone : string
}.

(** [type AcademicPerformance] *)
Record AcademicPerformance : Type := {
  totalCredits : intNumber;
  gpa : number
}.

(** [class Course] *)
Record Course : Type := {
  course_ref : nat;
  course_name : string;
  credits : Z;
  discipline : string
}.

(** [class Person] *)
Record Person : Type := {
  person_ref : nat;
  firstName : string;
  lastName : string;
  birthDay : Date;
  id : Z;
  gender : string;
  contactInfo : ContactInfo;
  role : string
}.

(** [class Teacher extends Person] *)
Record Teacher : Type := {
  teacher_person : Person;
  specializations : list string;
  courses : list Course
}.

(** [class Student extends Person] *)
Record Student : Type := {
  student_person : Person;
  academicPerformance : AcademicPerformance;
  enrolledCourses : list Course;
  status : string
}.

(** An element of [Person[]]: an instance of [Person] or of one of its
    two subclasses. *)
Inductive PersonObject : Type :=
| APerson (p : Person)
| ATeacher (t : Teacher)
| AStudent (s : Student).

Definition asPerson (o : PersonObject) : Person :=
  match o with
  | APerson p => p
  | ATeacher t => teacher_person t
  | AStudent s => student_person s
  end.

(** [class Group] *)
Record Group : Type := {
  group_name : string;
  course : Course;
  teacher : Teacher;
  students : list Student
}.

(** [class University] *)
Record University : Type := {
  university_name : string;
  university_courses : list Course;
  groups : list Group;
  people : list PersonObject
}.

(** *** Person *)

(** [get age()], with the value of [new Date()] as an argument. *)
Definition age (today : Date) (p : Person) : Z :=
  let age0 := getFullYear today - getFullYear (birthDay p) in
  let monthDiff := getMonth today - getMonth (birthDay p) in
  if (monthDiff <? 0)
     || ((monthDiff =? 0) && (getDate today <? getDate (birthDay p)))
  then age0 - 1
  else age0.

(** *** Student *)

Definition set_enrollment (s : Student) (cs : list Course) (total : intNumber)
  : Student :=
  {| student_person := student_person s;
     academicPerformance :=
       {| totalCredits := total; gpa := gpa (academicPerformance s) |};
     enrolledCourses := cs;
     status := status s |}.

(** [enrollCourse(course)] *)
Definition enrollCourse (c : Course) (s : Student) : Student * completion unit :=
  if negb (String.eqb (status s) AcademicStatus_active) then
    (s, Throw (UniversityError "Cannot enroll: Student is not in active status"))
  else
    (set_enrollment s (push (enrolledCourses s) c)
                    (intPlus (totalCredits (academicPerformance s))
                             (IntNum (credits c))),
     Normal tt).

(** [getAverageScore()] *)
Definition getAverageScore (s : Student) : number := gpa (academicPerformance s).

(** [updateAcademicStatus(newStatus)] *)
Definition updateAcademicStatus (newStatus : string) (s : Student) : Student :=
  {| student_person := student_person s;
     academicPerformance := academicPerformance s;
     enrolledCourses := enrolledCourses s;
     status := newStatus |}.

(** *** Group *)

Definition set_students (g : Group) (ss : list Student) : Group :=
  {| group_name := group_name g; course := course g; teacher := teacher g;
     students := ss |}.

(** [this.students.includes(student)] *)
Definition includesStudent (ss : list Student) (s : Student) : bool :=
  existsb (fun x => Nat.eqb (person_ref (student_person x))
                            (person_ref (student_person s))) ss.

(** [addStudent(student)] *)
Definition addStudent (s : Student) (g : Group) : Group * completion unit :=
  if includesStudent (students g) s then
    (g, Throw (UniversityError "Student is already in the group"))
  else (set_students g (push (students g) s), Normal tt).

(** [getStudentIdByGroup(id)]: [!~index] holds when [~index] is zero. *)
Definition getStudentIdByGroup (n : Z) (g : Group) : completion Z :=
  let index := findIndex (fun student => id (student_person student) =? n)
                         (students g) in
  if negb (truthyNumber (bitNot index)) then
    Throw (UniversityError "Student not found in group")
  else Normal index.

(** [removeStudentById(id)]: the argument of [splice] is evaluated
    first, and a throw there leaves the array as it was. *)
Definition removeStudentById (n : Z) (g : Group) : Group * completion unit :=
  match getStudentIdByGroup n g with
  | Throw e => (g, Throw e)
  | Normal index => (set_students g (splice1 (students g) index), Normal tt)
  end.

(** The second copy of the class carries the lookup inline. *)
Definition removeStudentById_inline (n : Z) (g : Group)
  : Group * completion unit :=
  let index := findIndex (fun student => id (student_person student) =? n)
                         (students g) in
  if negb (truthyNumber (bitNot index)) then
    (g, Throw (UniversityError "Student not found in group"))
  else (set_students g (splice1 (students g) index), Normal tt).

(** [getAverageGroupScore()] *)
Definition getAverageGroupScore (g : Group) : number :=
  if truthyNumber (Z.of_nat (List.length (students g))) then Finite 0
  else
    let totalScore :=
      fold_left (fun sum student => numberAdd sum (getAverageScore student))
                (students g) (Finite 0) in
    numberDiv totalScore (numberOfNat (List.length (students g))).

(** [getStudents()] *)
Definition getStudents (g : Group) : list Student := students g.

(** *** University *)

(** [assertNeverRole(role)]; the message is the template
    [`Unhandled role: ${role}`]. *)
Definition assertNeverRole {A : Type} (r : string) : completion A :=
  Throw (Error ("Unhandled role: " ++ r)%string).

(** [getAllPeopleByRole(role)] *)
Definition getAllPeopleByRole (r : string) (u : University)
  : completion (list PersonObject) :=
  if String.eqb r Role_student then
    Normal (filter (fun person => String.eqb (role (asPerson person)) "student")
                   (people u))
  else if String.eqb r Role_teacher then
    Normal (filter (fun person => String.eqb (role (asPerson person)) "teacher")
                   (people u))
  else assertNeverRole r.

(** *** Constructors and the static id counter

    [Person.nextId] is one static field, read and incremented by the
    [Person] constructor, which the constructors of both subclasses
    call; [uni_nextRef] is the next free address. *)

(** [type PersonInfo] *)
Record PersonInfo : Type := {
  info_firstName : string;
  info_lastName : string;
  info_birthDay : Date;
  info_gender : string;
  info_email : string;
  info_phone : string
}.

Record UniStatics : Type := {
  Person_nextId : Z;
  uni_nextRef : nat
}.

(** [static nextId = 1] *)
Definition initialUniStatics : UniStatics :=
  {| Person_nextId := 1; uni_nextRef := 0 |}.

(** [new Person(info, role)] *)
Definition new_Person (info : PersonInfo) (r : string) (st : UniStatics)
  : Person * UniStatics :=
  ({| person_ref := uni_nextRef st;
      firstName := info_firstName info;
      lastName := info_lastName info;
      birthDay := info_birthDay info;
      id := Person_nextId st;
      gender := info_gender info;
      contactInfo := {| email := info_email info; phone := info_phone info |};
      role := r |},
   {| Person_nextId := increment (Person_nextId st);
      uni_nextRef := S (uni_nextRef st) |}).

(** [new Teacher(info, specializations = [])]: an omitted second
    argument takes the default. *)
Definition new_Teacher (info : PersonInfo) (specs : option (list string))
  (st : UniStatics) : Teacher * UniStatics :=
  let (p, st1) := new_Person info Role_teacher st in
  ({| teacher_person := p;
      specializations := match specs with Some xs => xs | None => [] end;
      courses := [] |}, st1).

(** [new Student(info)] *)
Definition new_Student (info : PersonInfo) (st : UniStatics)
  : Student * UniStatics :=
  let (p, st1) := new_Person info Role_student st in
  ({| student_person := p;
      academicPerformance := {| totalCredits := IntNum 0; gpa := Finite 0 |};
      enrolledCourses := [];
      status := AcademicStatus_active |}, st1).

(** One constructor call of either subclass. *)
Inductive NewPerson : Type :=
| NewTeacher (info : PersonInfo) (specs : option (list string))
| NewStudent (info : PersonInfo).

Definition construct (n : NewPerson) (st : UniStatics)
  : PersonObject * UniStatics :=
  match n with
  | NewTeacher info specs =>
      let (t, st1) := new_Teacher info specs st in (ATeacher t, st1)
  | NewStudent info =>
      let (s, st1) := new_Student info st in (AStudent s, st1)
  end.

(** Successive constructor calls, in order. *)
Fixpoint constructAll (ns : list NewPerson) (st : UniStatics)
  : list PersonObject * UniStatics :=
  match ns with
  | [] => ([], st)
  | n :: rest =>
      let (o, st1) := construct n st in
      let (os, st2) := constructAll rest st1 in
      (o :: os, st2)
  end.

(** [new Group(name, course, teacher)] *)
Definition new_Group (name0 : string) (c : Course) (t : Teacher) : Group :=
  {| group_name := name0; course := c; teacher := t; students := [] |}.

(** [new University(name)] *)
Definition new_University (name0 : string) : University :=
  {| university_name := name0; university_courses := []; groups := [];
     people := [] |}.

(** *** Person, Teacher, Student: the remaining members *)

(** [get fullName()] *)
Definition fullName (p : Person) : string :=
  (lastName p ++ " " ++ firstName p)%string.

(** [assignCourse(course)] *)
Definition assignCourse (c : Course) (t : Teacher) : Teacher :=
  {| teacher_person := teacher_person t;
     specializations := specializations t;
     courses := push (courses t) c |}.

(** [removeCourse(courseName)] *)
Definition removeCourse (courseName : string) (t : Teacher) : Teacher :=
  {| teacher_person := teacher_person t;
     specializations := specializations t;
     courses := filter (fun c => negb (String.eqb (course_name c) courseName))
                       (courses t) |}.

(** [getCourses()] *)
Definition getCourses (t : Teacher) : list Course := courses t.

(** [getTotalCredits] *)
Definition getTotalCredits (s : Student) : intNumber :=
  totalCredits (academicPerformance s).

(** [getEnrolledCourses()] *)
Definition getEnrolledCourses (s : Student) : list Course := enrolledCourses s.

(** What a caller can do to a student, and a run of such calls in
    order, going on after a failed [enrollCourse]. *)
Inductive StudentCall : Type :=
| CallEnroll (c : Course)
| CallUpdateStatus (newStatus : string).

Definition studentCall (k : StudentCall) (s : Student) : Student :=
  match k with
  | CallEnroll c => fst (enrollCourse c s)
  | CallUpdateStatus newStatus => updateAcademicStatus newStatus s
  end.

Definition studentCalls (ks : list StudentCall) (s : Student) : Student :=
  fold_left (fun acc k => studentCall k acc) ks s.

(** *** Group: the remaining members *)

(** [xs[i]] for an integer [i]: [undefined] outside the array. *)
Definition arrayGet {A : Type} (xs : list A) (i : Z) : option A :=
  if i <? 0 then None else nth_error xs (Z.to_nat i).

(** [getStudentById(id)] *)
Definition getStudentById (n : Z) (g : Group) : completion (option Student) :=
  bind (getStudentIdByGroup n g) (fun index =>
  Normal (arrayGet (students g) index)).

(** *** University: the remaining members *)

(** [addCourse(course)] *)
Definition addCourse (c : Course) (u : University) : University :=
  {| university_name := university_name u;
     university_courses := push (university_courses u) c;
     groups := groups u; people := people u |}.

(** [addGroup(group)] *)
Definition addGroup (g : Group) (u : University) : University :=
  {| university_name := university_name u;
     university_courses := university_courses u;
     groups := push (groups u) g; people := people u |}.

(** [addPerson(person)] *)
Definition addPerson (o : PersonObject) (u : University) : University :=
  {| university_name := university_name u;
     university_courses := university_courses u;
     groups := groups u; people := push (people u) o |}.

(** [findGroupByCourse(course)]: [===] on the two course objects. *)
Definition findGroupByCourse (c : Course) (u : University) : option Group :=
  find (fun group => Nat.eqb (course_ref (course group)) (course_ref c))
       (groups u).

End Uni.

Import Lib Uni.

(** ** Vocabulary of the documented properties *)

(** [sub] is contained in [s] up to case: the lower-case form of [sub]
    occurs in the lower-case form of [s]. *)
Definition containsIgnoringCase {cm : CaseMapping} (s sub : text) : Prop :=
  exists pre post, toLowerCase s = pre ++ toLowerCase sub ++ post.

(** A book matches a criteria record when at least one supplied field
    matches: the reading in which every supplied field takes part. *)
Definition matchesSupplied {cm : CaseMapping} (c : CriteriaBook) (b : Book)
  : Prop :=
  (exists t, title c = Some t /\ containsIgnoringCase (book_title b) t)
  \/ (exists g, genre c = Some g /\ containsIgnoringCase (book_genre b) g)
  \/ (exists y, year c = Some y /\ book_year b = y)
  \/ (exists a, authorName c = Some a
                /\ containsIgnoringCase (author_name (book_author b)) a).

(** The same, where a supplied empty string or a supplied year [0] is
    treated like an omitted field. *)
Definition matchesSuppliedTruthy {cm : CaseMapping} (c : CriteriaBook)
  (b : Book) : Prop :=
  (exists t, title c = Some t /\ t <> []
             /\ containsIgnoringCase (book_title b) t)
  \/ (exists g, genre c = Some g /\ g <> []
                /\ containsIgnoringCase (book_genre b) g)
  \/ (exists y, year c = Some y /\ y <> 0 /\ book_year b = y)
  \/ (exists a, authorName c = Some a /\ a <> []
                /\ containsIgnoringCase (author_name (book_author b)) a).

(** On a library whose books array is defined, [search] returns exactly
    the books of the library that satisfy [M], in the order of the
    library. *)
Definition searchReturnsExactly {cm : CaseMapping}
  (M : CriteriaBook -> Book -> Prop) (c : CriteriaBook) (l : Library) : Prop :=
  forall bs, books l = Some bs ->
  exists p, search c l = Normal (filter p bs)
            /\ forall b, p b = true <-> M c b.

(** Every operation that reads [books] or [authors] fails with a
    [TypeError]. *)
Definition allReadsFail {cm : CaseMapping} (l : Library) : Prop :=
  (forall b, snd (addBook b l) = Throw TypeError)
  /\ getBooks l = Throw TypeError
  /\ (forall n, getBookById n l = Throw TypeError)
  /\ getAuthors l = Throw TypeError
  /\ (forall n, getAuthorById n l = Throw TypeError)
  /\ (forall x, getBooksByAuthor x l = Throw TypeError)
  /\ (forall c, search c l = Throw TypeError).

(** The book is already in the array, as the same object. *)
Definition presentByReference (bs : list Book) (b : Book) : Prop :=
  exists b', In b' bs /\ book_ref b' = book_ref b.

(** The sum of the members' scores divided by the member count. *)
Definition averageOfScores (ss : list Student) : number :=
  numberDiv (fold_left numberAdd (map getAverageScore ss) (Finite 0))
            (numberOfNat (List.length ss)).

(** The current month and day come before the month and day of birth. *)
Definition beforeBirthday (today birth : Date) : Prop :=
  getMonth today < getMonth birth
  \/ (getMonth today = getMonth birth /\ getDate today < getDate birth).

(** The Gregorian calendar, months counted from 0. *)
Definition isLeapYear (y : Z) : bool :=
  ((y mod 4 =? 0) && negb (y mod 100 =? 0)) || (y mod 400 =? 0).

Definition daysInMonth (y m : Z) : Z :=
  if m =? 1 then (if isLeapYear y then 29 else 28)
  else if (m =? 3) || (m =? 5) || (m =? 8) || (m =? 10) then 30
  else 31.

Definition validDate (d : Date) : Prop :=
  0 <= getMonth d <= 11 /\ 1 <= getDate d <= daysInMonth (getFullYear d) (getMonth d).

Definition oneYearBefore (d : Date) : Date :=
  {| getFullYear := getFullYear d - 1; getMonth := getMonth d;
     getDate := getDate d |}.

Definition nextDay (d : Date) : Date :=
  if getDate d <? daysInMonth (getFullYear d) (getMonth d) then
    {| getFullYear := getFullYear d; getMonth := getMonth d;
       getDate := getDate d + 1 |}
  else if getMonth d <? 11 then
    {| getFullYear := getFullYear d; getMonth := getMonth d + 1; getDate := 1 |}
  else
    {| getFullYear := getFullYear d + 1; getMonth := 0; getDate := 1 |}.

(** ** Sample data for the worked instances *)

(** The criteria record [{title: ""}]. *)
Definition emptyTitleCriteria : CriteriaBook :=
  {| title := Some []; genre := None; year := None; authorName := None |}.

(** A library of capacity 1 that already holds [book1]. *)
Definition fullLibrary : Library :=
  {| name := "Shelf"; books := Some [book1]; authors := Some [author1];
     maxBooks := 1 |}.

Definition sampleCourse : Course :=
  {| course_ref := 100; course_name := "Algebra"; credits := 5;
     discipline := "Mathematics" |}.

Definition samplePerson (n : nat) (r : string) : Person :=
  {| person_ref := n; firstName := "Ada"; lastName := "Lovelace";
     birthDay := {| getFullYear := 2000; getMonth := 5; getDate := 15 |};
     id := Z.of_nat n; gender := "female";
     contactInfo := {| email := "info@university.com";
                       phone := "+380955555555" |};
     role := r |}.

(** What [new Student(info)] builds, apart from the score. *)
Definition sampleStudent (n : nat) (score : number) : Student :=
  {| student_person := samplePerson n Role_student;
     academicPerformance := {| totalCredits := IntNum 0; gpa := score |};
     enrolledCourses := [];
     status := AcademicStatus_active |}.

(** A course worth [2 ^ 53] credits, a course worth one credit, and a
    new student after enrolling in the first. *)
Definition heavyCourse : Course :=
  {| course_ref := 101; course_name := "Thesis"; credits := 2 ^ 53;
     discipline := "Mathematics" |}.

Definition oneCreditCourse : Course :=
  {| course_ref := 102; course_name := "Seminar"; credits := 1;
     discipline := "Mathematics" |}.

Definition saturatedStudent : Student :=
  fst (enrollCourse heavyCourse (sampleStudent 1 (Finite 0))).

Definition sampleTeacher : Teacher :=
  {| teacher_person := samplePerson 50 Role_teacher;
     specializations := ["Mathematics"%string]; courses := [] |}.

Definition sampleGroup (ss : list Student) : Group :=
  {| group_name := "G-1"; course := sampleCourse; teacher := sampleTeacher;
     students := ss |}.

Definition sampleUniversity : University :=
  {| university_name := "KPI"; university_courses := [sampleCourse];
     groups := [];
     people := [AStudent (sampleStudent 1 (Finite 0)); ATeacher sampleTeacher;
                AStudent (sampleStudent 2 (Finite 0))] |}.

Definition bornOn (d : Date) : Person :=
  {| person_ref := 1; firstName := "Ada"; lastName := "Lovelace";
     birthDay := d; id := 1; gender := "female";
     contactInfo := {| email := "info@university.com";
                       phone := "+380955555555" |};
     role := Role_student |}.

(** 31 December 2024, and the two birth dates around it one year
    earlier: 31 December 2023 and 1 January 2024. *)
Definition newYearsEve : Date :=
  {| getFullYear := 2024; getMonth := 11; getDate := 31 |}.

(** ** Vocabulary of the further properties *)

(** What the data model asks of a library: both arrays exist, no book
    object occurs twice, the capacity is respected, and the author list
    mirrors the book list. *)
Definition LibraryInv (l : Library) : Prop :=
  exists bs xs,
    books l = Some bs /\ authors l = Some xs
    /\ NoDup (map book_ref bs)
    /\ Z.of_nat (List.length bs) <= maxBooks l
    /\ xs = map book_author bs.

(** [c'] supplies every field that [c] supplies, with the same value. *)
Definition extendsCriteria (c c' : CriteriaBook) : Prop :=
  (forall t, title c = Some t -> title c' = Some t)
  /\ (forall g, genre c = Some g -> genre c' = Some g)
  /\ (forall y, year c = Some y -> year c' = Some y)
  /\ (forall a, authorName c = Some a -> authorName c' = Some a).

Definition noCriteria : CriteriaBook :=
  {| title := None; genre := None; year := None; authorName := None |}.

Definition byAuthorName (s : text) : CriteriaBook :=
  {| title := None; genre := None; year := None; authorName := Some s |}.

(** The integers [start], [start + 1], ..., [n] of them. *)
Definition consecutiveFrom (start : Z) (n : nat) : list Z :=
  map (fun k => start + Z.of_nat k) (seq 0 n).

(** The student is already in the array, as the same object. *)
Definition presentStudent (ss : list Student) (s : Student) : Prop :=
  exists x, In x ss
            /\ person_ref (student_person x) = person_ref (student_person s).

Definition studentRefs (ss : list Student) : list nat :=
  map (fun s => person_ref (student_person s)) ss.

Definition studentIds (ss : list Student) : list Z :=
  map (fun s => id (student_person s)) ss.

Definition sumCredits (cs : list Course) : Z :=
  fold_right (fun c acc => credits c + acc) 0 cs.

(** The sum of the magnitudes of the credits. *)
Definition sumAbsCredits (cs : list Course) : Z :=
  fold_right (fun c acc => Z.abs (credits c) + acc) 0 cs.

(** The literal reading of "increases totalCredits by exactly the
    credits of the course": the new total is the old one plus the
    credits, as integers. *)
Definition enrollAddsExactly (c : Course) (s : Student) : Prop :=
  status s = AcademicStatus_active ->
  forall z,
    totalCredits (academicPerformance s) = IntNum z ->
    totalCredits (academicPerformance (fst (enrollCourse c s)))
    = IntNum (z + credits c).

(** The same for two successive calls with one course. *)
Definition enrollTwiceAddsExactly (c : Course) (s : Student) : Prop :=
  status s = AcademicStatus_active ->
  forall z,
    totalCredits (academicPerformance s) = IntNum z ->
    totalCredits
      (academicPerformance (fst (enrollCourse c (fst (enrollCourse c s)))))
    = IntNum (z + credits c + credits c).

(** Calendar order on the three accessors. *)
Definition dateLe (a b : Date) : Prop :=
  getFullYear a < getFullYear b
  \/ (getFullYear a = getFullYear b
      /\ (getMonth a < getMonth b
          \/ (getMonth a = getMonth b /\ getDate a <= getDate b))).

(** The role that the constructor of the subclass stores. *)
Definition roleOf (n : NewPerson) : string :=
  match n with
  | NewTeacher _ _ => Role_teacher
  | NewStudent _ => Role_student
  end.

Definition bookInfo (t g : text) (y : Z) (a : Author) : BookInfo :=
  {| info_title := t; info_genre := g; info_year := y; info_author := a |}.

Definition sampleInfo : PersonInfo :=
  {| info_firstName := "Ada"; info_lastName := "Lovelace";
     info_birthDay := {| getFullYear := 2000; getMonth := 5; getDate := 15 |};
     info_gender := "female"; info_email := "info@university.com";
     info_phone := "+380955555555" |}.

Definition courseNamed (n : nat) (nm : string) : Course :=
  {| course_ref := n; course_name := nm; credits := 3;
     discipline := "Physics" |}.

(** ** Strings: equality and containment *)

Lemma eqText_true (a b : text) : eqText a b = true <-> a = b.
Proof.
  revert b; induction a as [|c a IH]; intros [|d b]; cbn [eqText];
    try (split; [discriminate | congruence]); [tauto|].
  rewrite andb_true_iff, N.eqb_eq, IH. split.
  - intros [-> ->]. reflexivity.
  - intros E. injection E as -> ->. now split.
Qed.

Lemma startsWith_app (s sub : text) :
  startsWith s sub = true <-> exists post, s = sub ++ post.
Proof.
  revert s; induction sub as [|c sub IH]; intros s.
  - destruct s; cbn; (split; [intros _; eexists; reflexivity | reflexivity]).
  - destruct s as [|d s]; cbn [startsWith].
    + split; [discriminate | intros [post H]; discriminate].
    + rewrite andb_true_iff, N.eqb_eq, IH. split.
      * intros [-> [post ->]]. now exists post.
      * intros [post H]. injection H as -> ->. split; [reflexivity|].
        now exists post.
Qed.

Lemma includes_app (s sub : text) :
  includes s sub = true <-> exists pre post, s = pre ++ sub ++ post.
Proof.
  induction s as [|c s IH]; cbn [includes].
  - rewrite orb_false_r, startsWith_app. split.
    + intros [post H]. now exists [], post.
    + intros [pre [post H]]. destruct pre; [now exists post | discriminate].
  - rewrite orb_true_iff, startsWith_app, IH. split.
    + intros [[post H] | [pre [post H]]].
      * now exists [], post.
      * exists (c :: pre), post. cbn. now rewrite H.
    + intros [[|d pre] [post H]].
      * left. now exists post.
      * right. exists pre, post. cbn in H. now injection H.
Qed.

Lemma includes_lower {cm : CaseMapping} (s sub : text) :
  includes (toLowerCase s) (toLowerCase sub) = true <-> containsIgnoringCase s sub.
Proof. apply includes_app. Qed.

Lemma truthyString_true (s : text) : truthyString s = true <-> s <> [].
Proof. destruct s; cbn; split; congruence. Qed.

Lemma truthyNumber_true (n : Z) : truthyNumber n = true <-> n <> 0.
Proof.
  unfold truthyNumber. rewrite negb_true_iff, Z.eqb_neq. reflexivity.
Qed.

(** ** The library catalogue: properties *)

(** The sample at the end of the file, run on a library whose array
    fields hold empty arrays, with the case mapping of ASCII text: the
    query [{title: "Harry", genre: "Fantasy"}] returns the first two
    books. *)
Example search_sample :
  search (cm := asciiCase)
    {| title := Some (str "Harry"); genre := Some (str "Fantasy");
       year := None; authorName := None |} filledLibrary
  = Normal [book1; book2].
Proof. reflexivity. Qed.

(** The sample as the file has it, on the library that the constructor
    returns: the first [addBook] already fails. *)
Example addBook_sample_fails :
  addBook book1 library = (library, Throw TypeError).
Proof. reflexivity. Qed.

(** C2 (as amended): on a freshly constructed library the operations
    that call a method of [books] or [authors] or read their length
    (addBook, getBookById, getAuthorById, getBooksByAuthor, search, and
    getAuthorByBookId through getBookById) fail with a TypeError and
    leave the library as it was, while getBooks and getAuthors complete
    normally and return undefined. *)
Theorem fresh_library_reads :
  forall (cm : CaseMapping) (nm : string) (cap : Z),
    let l := new_Library nm cap in
    (forall b, addBook b l = (l, Throw TypeError))
    /\ (forall n, getBookById n l = Throw TypeError)
    /\ (forall n, getAuthorById n l = Throw TypeError)
    /\ (forall x, getBooksByAuthor x l = Throw TypeError)
    /\ (forall c, search c l = Throw TypeError)
    /\ (forall n, getAuthorByBookId n l = Throw TypeError)
    /\ getBooks l = Normal None
    /\ getAuthors l = Normal None.
Proof.
  intros cm nm cap l. repeat split; try reflexivity.
  intros [n | s]; reflexivity.
Qed.

(** C2 (as stated, refuted): on the library of the sample, getBooks does
    not fail with a TypeError, so not every operation of the list does. *)
Lemma fresh_library_not_all_reads_fail :
  ~ allReadsFail (cm := asciiCase) (new_Library "City Library" 100).
Proof.
  intros [_ [H _]]. discriminate H.
Qed.

Section SearchFlags.

Context {cm : CaseMapping}.

Lemma matchesTitle_true (c : CriteriaBook) (b : Book) :
  matchesTitle c b = true
  <-> exists t, title c = Some t /\ t <> []
                /\ containsIgnoringCase (book_title b) t.
Proof.
  unfold matchesTitle. destruct (title c) as [t|].
  - destruct (truthyString t) eqn:T.
    + rewrite includes_lower. apply truthyString_true in T. split.
      * intros H. now exists t.
      * intros [t' [E [_ H]]]. now injection E as <-.
    + split; [discriminate|]. intros [t' [E [N _]]]. injection E as <-.
      apply truthyString_true in N. congruence.
  - split; [discriminate | intros [t [E _]]; discriminate].
Qed.

Lemma matchesGenre_true (c : CriteriaBook) (b : Book) :
  matchesGenre c b = true
  <-> exists g, genre c = Some g /\ g <> []
                /\ containsIgnoringCase (book_genre b) g.
Proof.
  unfold matchesGenre. destruct (genre c) as [g|].
  - destruct (truthyString g) eqn:T.
    + rewrite includes_lower. apply truthyString_true in T. split.
      * intros H. now exists g.
      * intros [g' [E [_ H]]]. now injection E as <-.
    + split; [discriminate|]. intros [g' [E [N _]]]. injection E as <-.
      apply truthyString_true in N. congruence.
  - split; [discriminate | intros [g [E _]]; discriminate].
Qed.

Lemma matchesAuthor_true (c : CriteriaBook) (b : Book) :
  matchesAuthor c b = true
  <-> exists a, authorName c = Some a /\ a <> []
                /\ containsIgnoringCase (author_name (book_author b)) a.
Proof.
  unfold matchesAuthor. destruct (authorName c) as [a|].
  - destruct (truthyString a) eqn:T.
    + rewrite includes_lower. apply truthyString_true in T. split.
      * intros H. now exists a.
      * intros [a' [E [_ H]]]. now injection E as <-.
    + split; [discriminate|]. intros [a' [E [N _]]]. injection E as <-.
      apply truthyString_true in N. congruence.
  - split; [discriminate | intros [a [E _]]; discriminate].
Qed.

End SearchFlags.

Lemma matchesYear_true (c : CriteriaBook) (b : Book) :
  matchesYear c b = true
  <-> exists y, year c = Some y /\ y <> 0 /\ book_year b = y.
Proof.
  unfold matchesYear. destruct (year c) as [y|].
  - destruct (truthyNumber y) eqn:T.
    + rewrite Z.eqb_eq. apply truthyNumber_true in T. split.
      * intros H. now exists y.
      * intros [y' [E [_ H]]]. now injection E as <-.
    + split; [discriminate|]. intros [y' [E [N _]]]. injection E as <-.
      apply truthyNumber_true in N. congruence.
  - split; [discriminate | intros [y [E _]]; discriminate].
Qed.

(** C3 (as amended): for every library whose books array is defined and
    every criteria record, whatever lower-case mapping the host
    provides, search returns exactly the books, in library order, for
    which at least one supplied and truthy field matches: title, genre
    and authorName by containment up to case (the lower-case form of
    the supplied string occurs in the lower-case form of the field),
    year by equality; an omitted field, a supplied empty string and a
    supplied year 0 contribute false. *)
Theorem search_matches_any_truthy_field :
  forall (cm : CaseMapping) (c : CriteriaBook) (l : Library) (bs : list Book),
    books l = Some bs ->
    exists p,
      search c l = Normal (filter p bs)
      /\ forall b, p b = true <-> matchesSuppliedTruthy c b.
Proof.
  intros cm c l bs Hbs. unfold search. rewrite Hbs. cbn [deref bind].
  eexists. split; [reflexivity|].
  intros b. unfold matchesSuppliedTruthy.
  rewrite !orb_true_iff, matchesTitle_true, matchesGenre_true,
    matchesYear_true, matchesAuthor_true.
  tauto.
Qed.

(** C3 (as stated, refuted): with the empty string supplied as title,
    every book matches by containment, yet search returns no book. *)
Lemma search_empty_title_counterexample :
  search (cm := asciiCase) emptyTitleCriteria filledLibrary = Normal []
  /\ matchesSupplied (cm := asciiCase) emptyTitleCriteria book1
  /\ ~ searchReturnsExactly (cm := asciiCase) (@matchesSupplied asciiCase)
         emptyTitleCriteria filledLibrary.
Proof.
  assert (M : matchesSupplied (cm := asciiCase) emptyTitleCriteria book1).
  { left. exists []. split; [reflexivity|].
    exists [], (toLowerCase (CaseMapping := asciiCase) (book_title book1)).
    reflexivity. }
  split; [reflexivity|]. split; [exact M|].
  intros H. destruct (H [book1; book2; book3] eq_refl) as [p [E Hp]].
  apply Hp in M. cbn in E. rewrite M in E. discriminate E.
Qed.

Lemma search_matches_any_truthy_field_witness :
  exists p,
    search (cm := asciiCase)
      {| title := Some (str "harry"); genre := Some (str "fantasy");
         year := Some 0; authorName := None |} filledLibrary
    = Normal (filter p [book1; book2; book3])
    /\ forall b, p b = true
                 <-> matchesSuppliedTruthy (cm := asciiCase)
                       {| title := Some (str "harry");
                          genre := Some (str "fantasy");
                          year := Some 0; authorName := None |} b.
Proof.
  apply (search_matches_any_truthy_field asciiCase
           {| title := Some (str "harry"); genre := Some (str "fantasy");
              year := Some 0; authorName := None |}
           filledLibrary [book1; book2; book3]).
  reflexivity.
Defined.

Lemma includesBook_true (bs : list Book) (b : Book) :
  includesBook bs b = true <-> presentByReference bs b.
Proof.
  unfold includesBook, presentByReference. rewrite existsb_exists.
  split; intros [x [H1 H2]]; exists x; split; trivial;
    now apply Nat.eqb_eq.
Qed.

Lemma includesBook_false (bs : list Book) (b : Book) :
  includesBook bs b = false <-> ~ presentByReference bs b.
Proof.
  rewrite <- includesBook_true. destruct (includesBook bs b); split;
    congruence.
Qed.

(** X23: on a library whose two arrays are defined, addBook(b) throws a
    LibraryError when b is already present by reference or when the
    number of books has reached maxBooks, and the library (so the
    length of books too) is then unchanged; otherwise it completes
    normally with b appended to books and the author of b appended to
    authors, whether or not that author is already listed. *)
Theorem addBook_spec :
  forall (l : Library) (b : Book) (bs : list Book) (xs : list Author),
    books l = Some bs ->
    authors l = Some xs ->
    (presentByReference bs b \/ Z.of_nat (List.length bs) >= maxBooks l ->
     isLibraryError (snd (addBook b l))
     /\ fst (addBook b l) = l
     /\ option_map (@List.length Book) (books (fst (addBook b l)))
        = Some (List.length bs))
    /\ (~ presentByReference bs b ->
        Z.of_nat (List.length bs) < maxBooks l ->
        addBook b l
        = ({| name := name l; books := Some (bs ++ [b]);
              authors := Some (xs ++ [book_author b]);
              maxBooks := maxBooks l |}, Normal tt)).
Proof.
  intros l b bs xs Hb Ha. unfold addBook. rewrite Hb. split.
  - intros H. destruct (includesBook bs b) eqn:I.
    + cbn. rewrite Hb. repeat split. now eexists.
    + destruct (Z.geb_spec (Z.of_nat (List.length bs)) (maxBooks l)) as [G|G].
      * cbn. rewrite Hb. repeat split. now eexists.
      * exfalso. apply includesBook_false in I. destruct H as [H|H];
          [contradiction | lia].
  - intros NP LT. apply includesBook_false in NP. rewrite NP.
    destruct (Z.geb_spec (Z.of_nat (List.length bs)) (maxBooks l)) as [G|G];
      [lia|].
    cbn. rewrite Ha. reflexivity.
Qed.

Lemma addBook_spec_witness :
  (isLibraryError (snd (addBook book2 fullLibrary))
   /\ fst (addBook book2 fullLibrary) = fullLibrary
   /\ option_map (@List.length Book) (books (fst (addBook book2 fullLibrary)))
      = Some 1%nat)
  /\ addBook book1 emptyLibrary
     = ({| name := "City Library"; books := Some [book1];
           authors := Some [author1]; maxBooks := 100 |}, Normal tt).
Proof.
  split.
  - apply (proj1 (addBook_spec fullLibrary book2 [book1] [author1]
                    eq_refl eq_refl)).
    right. simpl. lia.
  - apply (proj2 (addBook_spec emptyLibrary book1 [] [] eq_refl eq_refl)).
    + intros [b' [H _]]. exact H.
    + simpl. lia.
Defined.

Lemma addBooks_constructed (nm : string) (cap : Z) (bs : list Book) :
  addBooks bs (new_Library nm cap) = new_Library nm cap.
Proof.
  unfold addBooks. induction bs as [|b bs IH]; [reflexivity | exact IH].
Qed.

(** C4 (the code at the failing input): a library that the constructor
    has built never stores a book.  Whatever addBook calls came before,
    addBook(b) throws a TypeError, not a LibraryError, appends nothing
    and leaves books undefined, so that after the three calls of the
    sample the library is still as constructed. *)
Theorem addBook_on_constructed_library :
  forall (nm : string) (cap : Z) (bs : list Book) (b : Book),
    addBooks bs (new_Library nm cap) = new_Library nm cap
    /\ addBook b (addBooks bs (new_Library nm cap))
       = (new_Library nm cap, Throw TypeError)
    /\ ~ isLibraryError (snd (addBook b (addBooks bs (new_Library nm cap))))
    /\ books (fst (addBook b (addBooks bs (new_Library nm cap)))) = None
    /\ addBook book1 library = (library, Throw TypeError)
    /\ addBooks [book1; book2; book3] library = library.
Proof.
  intros nm cap bs b. rewrite addBooks_constructed. repeat split.
  intros [message H]. discriminate H.
Qed.

(** C8 (the code at the failing input): on a library that the
    constructor has built, whatever addBook calls came before and
    whatever the case mapping of the host, getBooksByAuthor throws a
    TypeError for every number and every string; after the three
    addBook calls of the sample the query "j.k. rowling" returns no
    list of books. *)
Theorem getBooksByAuthor_on_constructed_library :
  forall (cm : CaseMapping) (nm : string) (cap : Z) (bs : list Book)
         (x : IdOrName),
    getBooksByAuthor x (addBooks bs (new_Library nm cap)) = Throw TypeError
    /\ getBooksByAuthor (ByName (str "j.k. rowling"))
         (addBooks [book1; book2; book3] library)
       = Throw TypeError.
Proof.
  intros cm nm cap bs x. rewrite addBooks_constructed.
  split; [destruct x|]; reflexivity.
Qed.

(** Once both arrays have been assigned from outside, the same query
    finds the book of "J.K. Rowling" (with the case mapping of ASCII
    text). *)
Example getBooksByAuthor_sample :
  getBooksByAuthor (cm := asciiCase) (ByName (str "j.k. rowling")) filledLibrary
  = Normal [book1].
Proof. reflexivity. Qed.

(** ** The university roster: properties *)

Lemma fold_left_map {A B C : Type} (f : A -> B -> A) (g : C -> B)
  (xs : list C) (a : A) :
  fold_left (fun acc x => f acc (g x)) xs a = fold_left f (map g xs) a.
Proof.
  revert a; induction xs as [|x xs IH]; intros a; simpl;
    [reflexivity | apply IH].
Qed.

(** C1: getAverageGroupScore returns 0 for every group whose student
    list is non-empty; for a group whose list is empty it returns the
    sum of the members' scores divided by the member count, a division
    by a count of zero (of zero by zero, so the result is NaN). *)
Theorem getAverageGroupScore_inverted_guard :
  forall g : Group,
    (students g <> [] -> getAverageGroupScore g = Finite 0)
    /\ (students g = [] ->
        getAverageGroupScore g = averageOfScores (students g)
        /\ numberOfNat (List.length (students g)) = Finite 0
        /\ getAverageGroupScore g = NaN).
Proof.
  intros g. unfold getAverageGroupScore, averageOfScores.
  rewrite fold_left_map. split.
  - intros H. destruct (students g) as [|s ss]; [congruence|]. reflexivity.
  - intros ->. repeat split.
Qed.

Lemma getAverageGroupScore_inverted_guard_witness :
  getAverageGroupScore
    (sampleGroup [sampleStudent 1 (Finite 4); sampleStudent 2 (Finite 4)])
  = Finite 0
  /\ getAverageGroupScore (sampleGroup []) = NaN.
Proof.
  split.
  - apply (proj1 (getAverageGroupScore_inverted_guard
                    (sampleGroup [sampleStudent 1 (Finite 4);
                                  sampleStudent 2 (Finite 4)]))).
    discriminate.
  - apply (proj2 (getAverageGroupScore_inverted_guard (sampleGroup []))).
    reflexivity.
Defined.

(** *** Sums of integer-valued numbers *)

Lemma roundDouble_exact (z : Z) : Z.abs z <= 2 ^ 53 -> roundDouble z = z.
Proof.
  intros H. unfold roundDouble. cbv zeta.
  destruct (Z.ltb_spec (Z.abs z) (2 ^ 53)) as [L|L]; [reflexivity|].
  assert (E : Z.abs z = 2 ^ 53) by lia.
  destruct (Z.abs_eq_or_opp z) as [A|A]; rewrite A in E.
  - subst z. vm_compute. reflexivity.
  - assert (Ez : z = - 2 ^ 53) by lia. subst z. vm_compute. reflexivity.
Qed.

Lemma increment_exact (n : Z) :
  - 2 ^ 53 <= n + 1 <= 2 ^ 53 -> increment n = n + 1.
Proof. intros H. apply roundDouble_exact. lia. Qed.

Lemma increment_stuck : increment (2 ^ 53) = 2 ^ 53.
Proof. vm_compute. reflexivity. Qed.

Lemma intPlus_exact (a b : Z) :
  Z.abs (a + b) <= 2 ^ 53 -> intPlus (IntNum a) (IntNum b) = IntNum (a + b).
Proof.
  intros H. unfold intPlus. rewrite (roundDouble_exact _ H).
  assert (P : 2 ^ 53 < 2 ^ 1024) by (apply Z.pow_lt_mono_r; lia).
  destruct (Z.leb_spec (2 ^ 1024) (Z.abs (a + b))); [lia | reflexivity].
Qed.

(** *** Enrolment *)

(** C5 (as amended): enrollCourse(c) on a student whose status is not
    active throws a UniversityError and leaves the student, so
    enrolledCourses and totalCredits too, as it was; on an active
    student it completes normally, with c appended to enrolledCourses
    and totalCredits set to the double-precision sum of totalCredits
    and the credits of c, which is an increase by exactly the credits
    of c whenever the exact sum has magnitude at most 2^53. *)
Theorem enrollCourse_spec :
  forall (s : Student) (c : Course),
    (status s <> AcademicStatus_active ->
     isUniversityError (snd (enrollCourse c s))
     /\ enrolledCourses (fst (enrollCourse c s)) = enrolledCourses s
     /\ totalCredits (academicPerformance (fst (enrollCourse c s)))
        = totalCredits (academicPerformance s)
     /\ fst (enrollCourse c s) = s)
    /\ (status s = AcademicStatus_active ->
        snd (enrollCourse c s) = Normal tt
        /\ enrolledCourses (fst (enrollCourse c s)) = enrolledCourses s ++ [c]
        /\ totalCredits (academicPerformance (fst (enrollCourse c s)))
           = intPlus (totalCredits (academicPerformance s)) (IntNum (credits c))
        /\ forall z,
             totalCredits (academicPerformance s) = IntNum z ->
             Z.abs (z + credits c) <= 2 ^ 53 ->
             totalCredits (academicPerformance (fst (enrollCourse c s)))
             = IntNum (z + credits c)).
Proof.
  intros s c. unfold enrollCourse. split; intros H.
  - apply String.eqb_neq in H. rewrite H. cbn [negb fst snd].
    repeat split. now eexists.
  - apply String.eqb_eq in H. rewrite H.
    cbn [negb fst snd set_enrollment enrolledCourses academicPerformance
         totalCredits].
    repeat split. intros z Ez Hz. rewrite Ez. now apply intPlus_exact.
Qed.

(** C5 (as stated, refuted): a new student who has enrolled in a course
    of 2^53 credits and then enrols in a course of one credit keeps the
    total 2^53: the total has not grown by exactly one. *)
Lemma enrollCourse_exact_counterexample :
  totalCredits (academicPerformance saturatedStudent) = IntNum (2 ^ 53)
  /\ totalCredits
       (academicPerformance (fst (enrollCourse oneCreditCourse saturatedStudent)))
     = IntNum (2 ^ 53)
  /\ ~ enrollAddsExactly oneCreditCourse saturatedStudent.
Proof.
  split; [vm_compute; reflexivity|]. split; [vm_compute; reflexivity|].
  intros H. specialize (H eq_refl (2 ^ 53) ltac:(vm_compute; reflexivity)).
  vm_compute in H. discriminate H.
Qed.

Lemma enrollCourse_spec_witness :
  (isUniversityError
     (snd (enrollCourse sampleCourse
             (updateAcademicStatus AcademicStatus_expelled
                (sampleStudent 1 (Finite 4)))))
   /\ fst (enrollCourse sampleCourse
             (updateAcademicStatus AcademicStatus_expelled
                (sampleStudent 1 (Finite 4))))
      = updateAcademicStatus AcademicStatus_expelled (sampleStudent 1 (Finite 4)))
  /\ totalCredits (academicPerformance
                     (fst (enrollCourse sampleCourse (sampleStudent 1 (Finite 4)))))
     = IntNum (0 + 5).
Proof.
  split.
  - pose proof (proj1 (enrollCourse_spec
                         (updateAcademicStatus AcademicStatus_expelled
                            (sampleStudent 1 (Finite 4))) sampleCourse)) as H.
    destruct H as [H1 [_ [_ H4]]]; [discriminate|]. split; assumption.
  - destruct (proj2 (enrollCourse_spec (sampleStudent 1 (Finite 4))
                       sampleCourse) eq_refl) as [_ [_ [_ H]]].
    apply (H 0 eq_refl). vm_compute. discriminate.
Defined.

(** C10 (as amended): enrollCourse makes no duplicate check: on an
    active student two successive calls with the same course both
    complete normally, the course is appended to enrolledCourses twice
    and its credits are added to totalCredits twice in double-precision
    arithmetic, which is an increase by exactly twice the credits
    whenever the two exact sums have magnitude at most 2^53. *)
Theorem enrollCourse_twice :
  forall (s : Student) (c : Course),
    status s = AcademicStatus_active ->
    let s1 := fst (enrollCourse c s) in
    let s2 := fst (enrollCourse c s1) in
    snd (enrollCourse c s) = Normal tt
    /\ snd (enrollCourse c s1) = Normal tt
    /\ enrolledCourses s2 = enrolledCourses s ++ [c; c]
    /\ totalCredits (academicPerformance s2)
       = intPlus (intPlus (totalCredits (academicPerformance s))
                          (IntNum (credits c)))
                 (IntNum (credits c))
    /\ forall z,
         totalCredits (academicPerformance s) = IntNum z ->
         Z.abs (z + credits c) <= 2 ^ 53 ->
         Z.abs (z + credits c + credits c) <= 2 ^ 53 ->
         totalCredits (academicPerformance s2)
         = IntNum (z + credits c + credits c).
Proof.
  intros s c H. apply String.eqb_eq in H. unfold enrollCourse.
  rewrite H.
  cbn [negb fst snd set_enrollment enrolledCourses academicPerformance
       totalCredits status].
  rewrite H.
  cbn [negb fst snd set_enrollment enrolledCourses academicPerformance
       totalCredits status].
  unfold push. rewrite <- app_assoc. repeat split.
  intros z Ez H1 H2. rewrite Ez, (intPlus_exact _ _ H1).
  now apply intPlus_exact.
Qed.

(** C10 (as stated, refuted): the same student enrolling twice in the
    one-credit course keeps the total 2^53 instead of reaching
    2^53 + 2. *)
Lemma enrollCourse_twice_counterexample :
  totalCredits
    (academicPerformance
       (fst (enrollCourse oneCreditCourse
               (fst (enrollCourse oneCreditCourse saturatedStudent)))))
  = IntNum (2 ^ 53)
  /\ ~ enrollTwiceAddsExactly oneCreditCourse saturatedStudent.
Proof.
  split; [vm_compute; reflexivity|].
  intros H. specialize (H eq_refl (2 ^ 53) ltac:(vm_compute; reflexivity)).
  vm_compute in H. discriminate H.
Qed.

Lemma enrollCourse_twice_witness :
  enrolledCourses
    (fst (enrollCourse sampleCourse
            (fst (enrollCourse sampleCourse (sampleStudent 1 (Finite 4))))))
  = [sampleCourse; sampleCourse]
  /\ totalCredits
       (academicPerformance
          (fst (enrollCourse sampleCourse
                  (fst (enrollCourse sampleCourse (sampleStudent 1 (Finite 4)))))))
     = IntNum (0 + 5 + 5).
Proof.
  pose proof (enrollCourse_twice (sampleStudent 1 (Finite 4)) sampleCourse
                eq_refl) as [_ [_ [H3 [_ H5]]]].
  split; [exact H3|].
  apply (H5 0 eq_refl); vm_compute; discriminate.
Defined.

(** *** Looking a student up by id *)

Section FindIndex.

Context {A : Type} (p : A -> bool).

Lemma findIndexFrom_none (xs : list A) (i : Z) :
  (forall x, In x xs -> p x = false) -> findIndexFrom p xs i = -1.
Proof.
  revert i; induction xs as [|x xs IH]; intros i H; simpl; [reflexivity|].
  rewrite (H x (or_introl eq_refl)). apply IH.
  intros y Hy. apply H. now right.
Qed.

Lemma findIndexFrom_first (pre post : list A) (x : A) (i : Z) :
  (forall y, In y pre -> p y = false) ->
  p x = true ->
  findIndexFrom p (pre ++ x :: post) i = i + Z.of_nat (List.length pre).
Proof.
  revert i; induction pre as [|y pre IH]; intros i H Hx; simpl.
  - rewrite Hx. lia.
  - rewrite (H y (or_introl eq_refl)). rewrite IH; [lia | | exact Hx].
    intros z Hz. apply H. now right.
Qed.

End FindIndex.

Lemma bitNot_zero (n : Z) :
  -1 <= n < 2 ^ 32 - 1 -> (truthyNumber (bitNot n) = false <-> n = -1).
Proof.
  intros R. unfold truthyNumber, bitNot, toInt32, Z.lnot.
  rewrite negb_false_iff, Z.eqb_eq.
  change (2 ^ 31) with 2147483648 in *. change (2 ^ 32) with 4294967296 in *.
  pose proof (Z.mod_pos_bound (n + 2147483648) 4294967296 eq_refl) as B.
  pose proof (Z.div_mod (n + 2147483648) 4294967296) as D.
  split; intros H.
  - assert (D' := D ltac:(lia)). lia.
  - subst n. reflexivity.
Qed.

Lemma firstn_skipn_middle {A : Type} (pre post : list A) (x : A) :
  firstn (List.length pre) (pre ++ x :: post)
  ++ skipn (S (List.length pre)) (pre ++ x :: post)
  = pre ++ post.
Proof.
  induction pre as [|y pre IH]; [reflexivity|].
  change (y :: (firstn (List.length pre) (pre ++ x :: post)
                ++ skipn (S (List.length pre)) (pre ++ x :: post))
          = y :: (pre ++ post)).
  now rewrite IH.
Qed.

Lemma splice1_middle {A : Type} (pre post : list A) (x : A) :
  splice1 (pre ++ x :: post) (Z.of_nat (List.length pre)) = pre ++ post.
Proof.
  unfold splice1. rewrite length_app. cbn [List.length].
  destruct (Z.ltb_spec (Z.of_nat (List.length pre)) 0) as [L|L]; [lia|].
  rewrite Z.min_l by lia. rewrite Nat2Z.id.
  apply firstn_skipn_middle.
Qed.

Lemma removeStudentById_inline_eq (n : Z) (g : Group) :
  removeStudentById_inline n g = removeStudentById n g.
Proof.
  unfold removeStudentById_inline, removeStudentById, getStudentIdByGroup.
  now destruct (negb _).
Qed.

(** C6: on a roster of a length an array can have, removeStudentById(n)
    throws a UniversityError and leaves the group (so the length of the
    roster) unchanged when no student has id n; when the first student
    with id n sits at index i, it completes normally having removed
    exactly the element at index i, which shortens the roster by one. *)
Theorem removeStudentById_spec :
  forall (g : Group) (n : Z),
    Z.of_nat (List.length (students g)) < 2 ^ 32 ->
    ((forall s, In s (students g) -> id (student_person s) <> n) ->
     isUniversityError (snd (removeStudentById n g))
     /\ fst (removeStudentById n g) = g
     /\ List.length (students (fst (removeStudentById n g)))
        = List.length (students g))
    /\ (forall pre s post,
           students g = pre ++ s :: post ->
           (forall x, In x pre -> id (student_person x) <> n) ->
           id (student_person s) = n ->
           snd (removeStudentById n g) = Normal tt
           /\ students (fst (removeStudentById n g)) = pre ++ post
           /\ S (List.length (students (fst (removeStudentById n g))))
              = List.length (students g)).
Proof.
  intros g n Hlen. unfold removeStudentById, getStudentIdByGroup, findIndex.
  split.
  - intros Hno.
    rewrite findIndexFrom_none
      by (intros x Hx; apply Z.eqb_neq; now apply Hno).
    cbn. repeat split. now eexists.
  - intros pre s post E Hpre Hs. rewrite E in *.
    rewrite findIndexFrom_first;
      [ | intros y Hy; apply Z.eqb_neq; now apply Hpre | now apply Z.eqb_eq ].
    rewrite Z.add_0_l.
    destruct (truthyNumber (bitNot (Z.of_nat (List.length pre)))) eqn:T.
    + cbn. rewrite splice1_middle. repeat split.
      rewrite !length_app. cbn. lia.
    + exfalso. apply bitNot_zero in T; [lia|].
      rewrite length_app in Hlen. cbn [List.length] in Hlen. lia.
Qed.

Lemma removeStudentById_spec_witness :
  (isUniversityError
     (snd (removeStudentById 7
             (sampleGroup [sampleStudent 1 (Finite 0); sampleStudent 2 (Finite 0)])))
   /\ fst (removeStudentById 7
             (sampleGroup [sampleStudent 1 (Finite 0); sampleStudent 2 (Finite 0)]))
      = sampleGroup [sampleStudent 1 (Finite 0); sampleStudent 2 (Finite 0)])
  /\ students
       (fst (removeStudentById 2
               (sampleGroup [sampleStudent 1 (Finite 0); sampleStudent 2 (Finite 0);
                             sampleStudent 3 (Finite 0)])))
     = [sampleStudent 1 (Finite 0); sampleStudent 3 (Finite 0)].
Proof.
  split.
  - destruct (proj1 (removeStudentById_spec
                       (sampleGroup [sampleStudent 1 (Finite 0); sampleStudent 2 (Finite 0)])
                       7 ltac:(vm_compute; reflexivity)))
      as [H1 [H2 _]]; [|split; assumption].
    intros s [<-|[<-|[]]]; discriminate.
  - apply (proj2 (removeStudentById_spec
                    (sampleGroup [sampleStudent 1 (Finite 0); sampleStudent 2 (Finite 0);
                                  sampleStudent 3 (Finite 0)])
                    2 ltac:(vm_compute; reflexivity))
             [sampleStudent 1 (Finite 0)] (sampleStudent 2 (Finite 0)) [sampleStudent 3 (Finite 0)]).
    + reflexivity.
    + intros x [<-|[]]. discriminate.
    + reflexivity.
Defined.

(** C7: getAllPeopleByRole(role) returns exactly the people, in stored
    order, whose stored role string equals role when role is "student"
    or "teacher", and throws an error for every other role value. *)
Theorem getAllPeopleByRole_spec :
  forall (u : University) (r : string),
    (r = Role_student \/ r = Role_teacher ->
     exists p, getAllPeopleByRole r u = Normal (filter p (people u))
               /\ forall x, p x = true <-> role (asPerson x) = r)
    /\ (r <> Role_student -> r <> Role_teacher ->
        isThrow (getAllPeopleByRole r u)
        /\ getAllPeopleByRole r u
           = Throw (Error ("Unhandled role: " ++ r)%string)).
Proof.
  intros u r. unfold getAllPeopleByRole. split.
  - intros [-> | ->]; cbn; eexists; (split; [reflexivity|]);
      intros x; apply String.eqb_eq.
  - intros H1 H2. apply String.eqb_neq in H1, H2. rewrite H1, H2.
    split; [now eexists | reflexivity].
Qed.

Lemma getAllPeopleByRole_spec_witness :
  (exists p, getAllPeopleByRole "teacher" sampleUniversity
             = Normal (filter p (people sampleUniversity))
             /\ forall x, p x = true <-> role (asPerson x) = "teacher")
  /\ getAllPeopleByRole "teacher" sampleUniversity
     = Normal [ATeacher sampleTeacher]
  /\ getAllPeopleByRole "dean" sampleUniversity
     = Throw (Error "Unhandled role: dean").
Proof.
  split; [|split].
  - apply (proj1 (getAllPeopleByRole_spec sampleUniversity "teacher")).
    right. reflexivity.
  - reflexivity.
  - apply (proj2 (getAllPeopleByRole_spec sampleUniversity "dean"));
      discriminate.
Defined.

(** *** Age *)

Lemma age_unfold (today : Date) (p : Person) :
  age today p
  = getFullYear today - getFullYear (birthDay p)
    - (if (getMonth today <? getMonth (birthDay p))
          || ((getMonth today =? getMonth (birthDay p))
              && (getDate today <? getDate (birthDay p)))
       then 1 else 0).
Proof.
  unfold age.
  replace (getMonth today - getMonth (birthDay p) <? 0)
    with (getMonth today <? getMonth (birthDay p))
    by (destruct (Z.ltb_spec (getMonth today) (getMonth (birthDay p)));
        destruct (Z.ltb_spec (getMonth today - getMonth (birthDay p)) 0);
        trivial; lia).
  replace (getMonth today - getMonth (birthDay p) =? 0)
    with (getMonth today =? getMonth (birthDay p))
    by (destruct (Z.eqb_spec (getMonth today) (getMonth (birthDay p)));
        destruct (Z.eqb_spec (getMonth today - getMonth (birthDay p)) 0);
        trivial; lia).
  destruct (_ || _); lia.
Qed.

Lemma beforeBirthday_true (today birth : Date) :
  (getMonth today <? getMonth birth)
  || ((getMonth today =? getMonth birth) && (getDate today <? getDate birth))
  = true
  <-> beforeBirthday today birth.
Proof.
  unfold beforeBirthday.
  rewrite orb_true_iff, andb_true_iff, !Z.ltb_lt, Z.eqb_eq. reflexivity.
Qed.

(** C9: with d the current date, the age getter returns the difference
    between the year of d and the year of birth, less one exactly when
    the month of d is earlier than the month of birth, or the months
    are equal and the day of d is earlier than the day of birth.  In
    particular, when the date one year before d is a calendar date, a
    person born on it has age 1 and a person born the day after it (one
    year minus one day before d) has age 0, one less. *)
Theorem age_spec :
  forall (today : Date) (p : Person),
    (beforeBirthday today (birthDay p) ->
     age today p = getFullYear today - getFullYear (birthDay p) - 1)
    /\ (~ beforeBirthday today (birthDay p) ->
        age today p = getFullYear today - getFullYear (birthDay p))
    /\ (forall q : Person,
           validDate (oneYearBefore today) ->
           birthDay p = oneYearBefore today ->
           birthDay q = nextDay (oneYearBefore today) ->
           age today p = 1 /\ age today q = 0 /\ age today q = age today p - 1).
Proof.
  intros today p. rewrite age_unfold. split; [|split].
  - intros H. apply beforeBirthday_true in H. rewrite H. lia.
  - intros H. rewrite <- beforeBirthday_true in H.
    apply not_true_is_false in H. rewrite H. lia.
  - intros q [Hm Hd] Ep Eq. rewrite age_unfold, Ep, Eq.
    unfold nextDay, oneYearBefore in *. cbn [getFullYear getMonth getDate] in *.
    assert (Hp : (getMonth today <? getMonth today)
                 || ((getMonth today =? getMonth today)
                     && (getDate today <? getDate today)) = false).
    { rewrite !Z.ltb_irrefl, andb_false_r. reflexivity. }
    rewrite Hp.
    destruct (Z.ltb_spec (getDate today)
                (daysInMonth (getFullYear today - 1) (getMonth today))) as [L|L];
      cbn [getFullYear getMonth getDate].
    + replace (getDate today <? getDate today + 1) with true
        by (symmetry; apply Z.ltb_lt; lia).
      rewrite Z.eqb_refl, orb_true_r. lia.
    + destruct (Z.ltb_spec (getMonth today) 11) as [M|M];
        cbn [getFullYear getMonth getDate].
      * replace (getMonth today <? getMonth today + 1) with true
          by (symmetry; apply Z.ltb_lt; lia).
        cbn [orb]. lia.
      * replace (getMonth today <? 0) with false
          by (symmetry; apply Z.ltb_ge; lia).
        replace (getMonth today =? 0) with false
          by (symmetry; apply Z.eqb_neq; lia).
        cbn [orb andb]. lia.
Qed.

Lemma age_spec_witness :
  age newYearsEve
    (bornOn {| getFullYear := 2023; getMonth := 11; getDate := 31 |}) = 1
  /\ age newYearsEve
       (bornOn {| getFullYear := 2024; getMonth := 0; getDate := 1 |}) = 0
  /\ age newYearsEve
       (bornOn {| getFullYear := 2000; getMonth := 11; getDate := 31 |})
     = 2024 - 2000
  /\ age {| getFullYear := 2024; getMonth := 11; getDate := 30 |}
       (bornOn {| getFullYear := 2000; getMonth := 11; getDate := 31 |})
     = 2024 - 2000 - 1.
Proof.
  pose proof (age_spec newYearsEve
                (bornOn {| getFullYear := 2023; getMonth := 11; getDate := 31 |}))
    as [_ [_ H]].
  destruct (H (bornOn {| getFullYear := 2024; getMonth := 0; getDate := 1 |}))
    as [H1 [H2 _]].
  - vm_compute. intuition discriminate.
  - reflexivity.
  - reflexivity.
  - split; [exact H1 | split; [exact H2 | split]].
    + apply (proj1 (proj2 (age_spec newYearsEve
               (bornOn {| getFullYear := 2000; getMonth := 11; getDate := 31 |})))).
      unfold beforeBirthday. cbn. lia.
    + apply (proj1 (age_spec
               {| getFullYear := 2024; getMonth := 11; getDate := 30 |}
               (bornOn {| getFullYear := 2000; getMonth := 11; getDate := 31 |}))).
      unfold beforeBirthday. cbn. lia.
Defined.

(** ** The library catalogue: further properties *)

Lemma addBook_success (l : Library) (b : Book) (bs : list Book)
  (xs : list Author) :
  books l = Some bs ->
  authors l = Some xs ->
  includesBook bs b = false ->
  Z.of_nat (List.length bs) < maxBooks l ->
  addBook b l
  = ({| name := name l; books := Some (bs ++ [b]);
        authors := Some (xs ++ [book_author b]);
        maxBooks := maxBooks l |}, Normal tt).
Proof.
  intros Hb Ha I LT. unfold addBook. rewrite Hb, I.
  destruct (Z.geb_spec (Z.of_nat (List.length bs)) (maxBooks l)); [lia|].
  cbn. rewrite Ha. reflexivity.
Qed.

Lemma includesBook_notin (bs : list Book) (b : Book) :
  includesBook bs b = false <-> ~ In (book_ref b) (map book_ref bs).
Proof.
  rewrite includesBook_false. unfold presentByReference.
  rewrite in_map_iff. split; intros H [x [H1 H2]]; apply H; exists x; tauto.
Qed.

Lemma NoDup_snoc {A : Type} (xs : list A) (x : A) :
  NoDup xs -> ~ In x xs -> NoDup (xs ++ [x]).
Proof.
  intros N H. induction N as [|y ys Hy N IH]; simpl.
  - constructor; [intros [] | constructor].
  - constructor.
    + rewrite in_app_iff. intros [I | [E | []]]; [contradiction|].
      subst. apply H. now left.
    + apply IH. intros I. apply H. now right.
Qed.

Lemma addBook_keeps_invariant (b : Book) (l : Library) :
  LibraryInv l -> LibraryInv (fst (addBook b l)).
Proof.
  intros Inv. pose proof Inv as [bs [xs [Hb [Ha [N [Cap Mirror]]]]]].
  unfold addBook. rewrite Hb.
  destruct (includesBook bs b) eqn:I; [exact Inv|].
  destruct (Z.geb_spec (Z.of_nat (List.length bs)) (maxBooks l)) as [G|G];
    [exact Inv|].
  cbn. rewrite Ha. cbn.
  exists (bs ++ [b]), (xs ++ [book_author b]). cbn. unfold push.
  repeat split.
  - rewrite map_app. apply NoDup_snoc; [exact N|].
    now apply includesBook_notin.
  - rewrite length_app. cbn. lia.
  - now rewrite map_app, Mirror.
Qed.

(** X1: a library that has both arrays, no book object twice, at most
    maxBooks books and an author list that mirrors the book list keeps
    all of this through any run of addBook calls, failed ones included. *)
Theorem addBooks_keep_invariant :
  forall (bs : list Book) (l : Library),
    LibraryInv l -> LibraryInv (addBooks bs l).
Proof.
  unfold addBooks. induction bs as [|b bs IH]; intros l Inv; simpl.
  - exact Inv.
  - apply IH. now apply addBook_keeps_invariant.
Qed.

Lemma emptyLibrary_inv : LibraryInv emptyLibrary.
Proof.
  exists [], []. cbn. repeat split; [constructor | lia].
Qed.

Lemma addBooks_keep_invariant_witness :
  LibraryInv (addBooks [book1; book2; book1; book3] emptyLibrary).
Proof.
  apply (addBooks_keep_invariant [book1; book2; book1; book3] emptyLibrary).
  exact emptyLibrary_inv.
Defined.

Lemma find_app_notin {A : Type} (p : A -> bool) (xs ys : list A) :
  (forall x, In x xs -> p x = false) -> find p (xs ++ ys) = find p ys.
Proof.
  induction xs as [|x xs IH]; intros H; simpl; [reflexivity|].
  rewrite (H x (or_introl eq_refl)). apply IH. intros y Hy. apply H. now right.
Qed.

Lemma find_app_snoc_other {A : Type} (p : A -> bool) (xs : list A) (y : A) :
  p y = false -> find p (xs ++ [y]) = find p xs.
Proof.
  intros H. induction xs as [|x xs IH]; simpl.
  - now rewrite H.
  - destruct (p x); [reflexivity | exact IH].
Qed.

(** X2: after a successful addBook(b) on a library in which no book has
    the id of b, getBookById(b.id) returns b, and getBookById of any
    other id returns what it returned before the call. *)
Theorem addBook_then_getBookById :
  forall (l : Library) (b : Book) (bs : list Book) (xs : list Author),
    books l = Some bs ->
    authors l = Some xs ->
    ~ presentByReference bs b ->
    Z.of_nat (List.length bs) < maxBooks l ->
    (forall b', In b' bs -> book_id b' <> book_id b) ->
    getBookById (book_id b) (fst (addBook b l)) = Normal (Some b)
    /\ forall n, n <> book_id b ->
                 getBookById n (fst (addBook b l)) = getBookById n l.
Proof.
  intros l b bs xs Hb Ha NP LT Fresh.
  apply includesBook_false in NP.
  rewrite (addBook_success l b bs xs Hb Ha NP LT).
  unfold getBookById. cbn. rewrite Hb. cbn. split.
  - rewrite find_app_notin.
    + cbn. now rewrite Z.eqb_refl.
    + intros x Hx. apply Z.eqb_neq. now apply Fresh.
  - intros n Hn. rewrite find_app_snoc_other; [reflexivity|].
    apply Z.eqb_neq. congruence.
Qed.

Lemma addBook_then_getBookById_witness :
  getBookById 1 (fst (addBook book1 emptyLibrary)) = Normal (Some book1)
  /\ forall n, n <> 1 ->
               getBookById n (fst (addBook book1 emptyLibrary))
               = getBookById n emptyLibrary.
Proof.
  apply (addBook_then_getBookById emptyLibrary book1 [] [] eq_refl eq_refl).
  - intros [b' [H _]]. exact H.
  - simpl. lia.
  - intros b' H. destruct H.
Defined.

(** X3: on a library whose books array is defined, getBookById(n)
    returns only a stored book whose id is n, returns undefined exactly
    when no stored book has id n, and, when the stored ids are pairwise
    different, returns b for the id of every stored book b. *)
Theorem getBookById_sound_complete :
  forall (l : Library) (bs : list Book) (n : Z),
    books l = Some bs ->
    (forall b, getBookById n l = Normal (Some b) -> In b bs /\ book_id b = n)
    /\ (getBookById n l = Normal None
        <-> forall b, In b bs -> book_id b <> n)
    /\ (NoDup (map book_id bs) ->
        forall b, In b bs -> getBookById (book_id b) l = Normal (Some b)).
Proof.
  intros l bs n Hb. unfold getBookById. rewrite Hb. cbn. repeat split.
  - injection H as H. now apply find_some in H.
  - injection H as H. apply find_some in H. now apply Z.eqb_eq.
  - intros H b Hin. injection H as H.
    apply Z.eqb_neq. exact (find_none _ _ H b Hin).
  - intros H. f_equal. destruct (find _ bs) as [b|] eqn:F; [|reflexivity].
    apply find_some in F as [Hin E]. apply Z.eqb_eq in E.
    now destruct (H b Hin).
  - intros N b Hin. f_equal. clear Hb. induction bs as [|x bs IH];
      [destruct Hin|]. cbn [find]. cbn [map] in N. inversion N as [|? ? Hx N'].
    subst. destruct Hin as [->|Hin].
    + now rewrite Z.eqb_refl.
    + destruct (Z.eqb_spec (book_id x) (book_id b)) as [E|E].
      * exfalso. apply Hx. rewrite E. now apply in_map.
      * now apply IH.
Qed.

Lemma getBookById_sound_complete_witness :
  getBookById 3 filledLibrary = Normal (Some book3)
  /\ getBookById 7 filledLibrary = Normal None.
Proof.
  pose proof (getBookById_sound_complete filledLibrary [book1; book2; book3]
                7 eq_refl) as [_ [H7 _]].
  pose proof (getBookById_sound_complete filledLibrary [book1; book2; book3]
                3 eq_refl) as [_ [_ H3]].
  split.
  - apply (H3 ltac:(repeat constructor; cbn; intuition discriminate) book3).
    cbn. tauto.
  - apply H7. intros b [<-|[<-|[<-|[]]]]; discriminate.
Defined.

(** X4: on a library whose books array is defined, getAuthorByBookId(n)
    throws the LibraryError "Havent this book" when no stored book has
    id n, whatever the authors field holds; when some stored book has
    id n and the author list mirrors the book list, it returns a listed
    author whose id is the author id of the first stored book with id
    n, never undefined. *)
Theorem getAuthorByBookId_spec :
  forall (l : Library) (bs : list Book) (n : Z),
    books l = Some bs ->
    ((forall b, In b bs -> book_id b <> n) ->
     getAuthorByBookId n l = Throw (LibraryError "Havent this book"))
    /\ (forall b0,
           In b0 bs -> book_id b0 = n ->
           authors l = Some (map book_author bs) ->
           exists b a,
             find (fun book => book_id book =? n) bs = Some b
             /\ In a (map book_author bs)
             /\ author_id a = author_id (book_author b)
             /\ getAuthorByBookId n l = Normal (Some a)).
Proof.
  intros l bs n Hb. unfold getAuthorByBookId, getBookById.
  rewrite Hb. cbn [deref bind]. split.
  - intros H. destruct (find _ bs) as [b|] eqn:F; [|reflexivity].
    apply find_some in F as [Hin E]. apply Z.eqb_eq in E.
    now destruct (H b Hin).
  - intros b0 Hin0 E0 Ha.
    destruct (find (fun book => book_id book =? n) bs) as [b|] eqn:F.
    + apply find_some in F as [Hin _]. unfold getAuthorById.
      rewrite Ha. cbn [deref bind].
      destruct (find (fun author => author_id author =? author_id (book_author b))
                     (map book_author bs)) as [a|] eqn:G.
      * exists b, a. apply find_some in G as [Ga Ge]. apply Z.eqb_eq in Ge.
        repeat split; assumption.
      * exfalso.
        pose proof (find_none _ _ G (book_author b) (in_map _ _ _ Hin)) as C.
        cbn in C. now rewrite Z.eqb_refl in C.
    + exfalso. pose proof (find_none _ _ F b0 Hin0) as C. cbn in C.
      apply Z.eqb_neq in C. contradiction.
Qed.

Lemma getAuthorByBookId_spec_witness :
  getAuthorByBookId 9 filledLibrary = Throw (LibraryError "Havent this book")
  /\ exists b a,
       find (fun book => book_id book =? 3) [book1; book2; book3] = Some b
       /\ In a (map book_author [book1; book2; book3])
       /\ author_id a = author_id (book_author b)
       /\ getAuthorByBookId 3 filledLibrary = Normal (Some a).
Proof.
  split.
  - apply (proj1 (getAuthorByBookId_spec filledLibrary [book1; book2; book3]
                    9 eq_refl)).
    intros b [<-|[<-|[<-|[]]]]; discriminate.
  - apply (proj2 (getAuthorByBookId_spec filledLibrary [book1; book2; book3]
                    3 eq_refl) book3).
    + cbn. tauto.
    + reflexivity.
    + reflexivity.
Defined.

(** X5: addBook is not atomic: on a library whose books array is
    defined and whose authors field is undefined, a call that passes
    both checks appends the book and only then fails with a TypeError,
    so the book stays stored after the failed call. *)
Theorem addBook_authors_undefined :
  forall (l : Library) (b : Book) (bs : list Book),
    books l = Some bs ->
    authors l = None ->
    ~ presentByReference bs b ->
    Z.of_nat (List.length bs) < maxBooks l ->
    snd (addBook b l) = Throw TypeError
    /\ books (fst (addBook b l)) = Some (bs ++ [b])
    /\ authors (fst (addBook b l)) = None.
Proof.
  intros l b bs Hb Ha NP LT. apply includesBook_false in NP.
  unfold addBook. rewrite Hb, NP.
  destruct (Z.geb_spec (Z.of_nat (List.length bs)) (maxBooks l)); [lia|].
  cbn. rewrite Ha. cbn. repeat split. exact Ha.
Qed.

Lemma addBook_authors_undefined_witness :
  snd (addBook book1 (set_books library [])) = Throw TypeError
  /\ books (fst (addBook book1 (set_books library []))) = Some [book1]
  /\ authors (fst (addBook book1 (set_books library []))) = None.
Proof.
  apply (addBook_authors_undefined (set_books library []) book1 []
           eq_refl eq_refl).
  - intros [b' [H _]]. exact H.
  - simpl. lia.
Defined.

Lemma matches_widen {cm : CaseMapping} (c c' : CriteriaBook) (b : Book) :
  extendsCriteria c c' ->
  matchesTitle c b || matchesGenre c b || matchesYear c b || matchesAuthor c b
  = true ->
  matchesTitle c' b || matchesGenre c' b || matchesYear c' b
  || matchesAuthor c' b = true.
Proof.
  intros [Ht [Hg [Hy Ha]]].
  unfold matchesTitle, matchesGenre, matchesYear, matchesAuthor.
  destruct (title c) as [t|]; [rewrite (Ht t eq_refl)|];
  destruct (genre c) as [g|]; [rewrite (Hg g eq_refl)| |rewrite (Hg g eq_refl)|];
  (destruct (year c) as [y|]; [rewrite (Hy y eq_refl)|]);
  (destruct (authorName c) as [a|]; [rewrite (Ha a eq_refl)|]);
  rewrite ?orb_false_r, ?orb_false_l; intros H;
  repeat (apply orb_true_iff in H; destruct H as [H|H]);
  try discriminate H; rewrite H, ?orb_true_r; reflexivity.
Qed.

(** X6: supplying more fields never narrows a search: on a library
    whose books array is defined, every book returned for a criteria
    record is also returned for any record that supplies the same
    fields and more; and a record that supplies no field returns no
    book.  This holds whatever the case mapping of the host. *)
Theorem search_widens :
  forall (cm : CaseMapping) (l : Library) (bs : list Book)
         (c c' : CriteriaBook),
    books l = Some bs ->
    extendsCriteria c c' ->
    search noCriteria l = Normal []
    /\ exists rs rs',
         search c l = Normal rs /\ search c' l = Normal rs' /\ incl rs rs'.
Proof.
  intros cm l bs c c' Hb Ext. unfold search. rewrite Hb. cbn [deref bind].
  split.
  - f_equal. clear Hb. induction bs as [|b bs IH]; [reflexivity | exact IH].
  - eexists; eexists. split; [reflexivity|]. split; [reflexivity|].
    intros b Hin. apply filter_In in Hin as [Hin M]. apply filter_In.
    split; [exact Hin|]. now apply (matches_widen c c').
Qed.

Lemma search_widens_witness :
  search (cm := asciiCase) noCriteria filledLibrary = Normal []
  /\ exists rs rs',
       search (cm := asciiCase) (byAuthorName (str "martin")) filledLibrary
       = Normal rs
       /\ search (cm := asciiCase)
            {| title := Some (str "harry"); genre := None; year := Some 1998;
               authorName := Some (str "martin") |} filledLibrary
          = Normal rs'
       /\ incl rs rs'.
Proof.
  apply (search_widens asciiCase filledLibrary [book1; book2; book3]
           (byAuthorName (str "martin"))
           {| title := Some (str "harry"); genre := None; year := Some 1998;
              authorName := Some (str "martin") |} eq_refl).
  repeat split; cbn; intros x H; (discriminate H || exact H).
Defined.

(** *** Identifiers handed out by the constructors *)

Lemma consecutiveFrom_cons (start : Z) (n : nat) :
  consecutiveFrom start (S n) = start :: consecutiveFrom (start + 1) n.
Proof.
  unfold consecutiveFrom. cbn [seq map]. f_equal; [lia|].
  rewrite <- seq_shift, map_map. apply map_ext. intros k. lia.
Qed.

Lemma consecutiveFrom_In (start : Z) (n : nat) (z : Z) :
  In z (consecutiveFrom start n) <-> start <= z < start + Z.of_nat n.
Proof.
  unfold consecutiveFrom. rewrite in_map_iff. split.
  - intros [k [E Hk]]. apply in_seq in Hk. lia.
  - intros H. exists (Z.to_nat (z - start)). split; [lia|].
    apply in_seq. lia.
Qed.

Lemma consecutiveFrom_NoDup (start : Z) (n : nat) :
  NoDup (consecutiveFrom start n).
Proof.
  revert start; induction n as [|n IH]; intros start.
  - constructor.
  - rewrite consecutiveFrom_cons. constructor; [|apply IH].
    rewrite consecutiveFrom_In. lia.
Qed.

Lemma newBooks_fields (infos : list BookInfo) (st : LibStatics) :
  - 2 ^ 53 <= Book_nextId st ->
  Book_nextId st + Z.of_nat (List.length infos) <= 2 ^ 53 ->
  map book_id (fst (newBooks infos st))
  = consecutiveFrom (Book_nextId st) (List.length infos)
  /\ map book_ref (fst (newBooks infos st))
     = seq (lib_nextRef st) (List.length infos)
  /\ map book_author (fst (newBooks infos st)) = map info_author infos
  /\ map book_title (fst (newBooks infos st)) = map info_title infos
  /\ Book_nextId (snd (newBooks infos st))
     = Book_nextId st + Z.of_nat (List.length infos)
  /\ Author_nextId (snd (newBooks infos st)) = Author_nextId st.
Proof.
  revert st; induction infos as [|info infos IH]; intros st Lo Hi.
  - cbn. repeat split. lia.
  - cbn [newBooks].
    destruct (new_Book info st) as [b st1] eqn:E1.
    unfold new_Book in E1. injection E1 as Eb Est.
    cbn [List.length] in Hi.
    rewrite increment_exact in Est by lia.
    assert (C1 : Book_nextId st1 = Book_nextId st + 1) by now subst st1.
    assert (R1 : lib_nextRef st1 = S (lib_nextRef st)) by now subst st1.
    assert (A1 : Author_nextId st1 = Author_nextId st) by now subst st1.
    specialize (IH st1 ltac:(lia) ltac:(lia)).
    destruct (newBooks infos st1) as [bs st2].
    cbn [fst snd] in *. cbn [map List.length seq].
    rewrite consecutiveFrom_cons.
    destruct IH as [I1 [I2 [I3 [I4 [I5 I6]]]]].
    rewrite I1, I2, I3, I4, I5, I6, C1, R1, A1. subst b. cbn.
    repeat split. lia.
Qed.

(** X8: while the counter stays within the range in which doubles count
    exactly (from a counter of at least -2^53, through a run that ends
    at 2^53 or below; the fresh program starts at 1), the books created
    by successive constructor calls carry consecutive ids starting at
    the value of the counter before the run, so their ids are pairwise
    different; each is a new object; the counter ends advanced by the
    number of calls and the authors' counter is untouched. *)
Theorem newBooks_ids :
  forall (infos : list BookInfo) (st : LibStatics),
    - 2 ^ 53 <= Book_nextId st ->
    Book_nextId st + Z.of_nat (List.length infos) <= 2 ^ 53 ->
    map book_id (fst (newBooks infos st))
    = consecutiveFrom (Book_nextId st) (List.length infos)
    /\ NoDup (map book_id (fst (newBooks infos st)))
    /\ NoDup (map book_ref (fst (newBooks infos st)))
    /\ Book_nextId (snd (newBooks infos st))
       = Book_nextId st + Z.of_nat (List.length infos)
    /\ Author_nextId (snd (newBooks infos st)) = Author_nextId st.
Proof.
  intros infos st Lo Hi.
  destruct (newBooks_fields infos st Lo Hi) as [I1 [I2 [_ [_ [I5 I6]]]]].
  repeat split; try assumption.
  - rewrite I1. apply consecutiveFrom_NoDup.
  - rewrite I2. apply seq_NoDup.
Qed.

Lemma newBooks_ids_witness :
  map book_id
    (fst (newBooks [bookInfo (str "Harry Potter") (str "Fantasy") 1997 author1;
                    bookInfo (str "Game of Thrones") (str "Fantasy") 1996 author2;
                    bookInfo (str "A Clash of Kings") (str "War") 1998 author2]
            initialLibStatics))
  = [1; 2; 3].
Proof.
  apply (proj1 (newBooks_ids
                  [bookInfo (str "Harry Potter") (str "Fantasy") 1997 author1;
                   bookInfo (str "Game of Thrones") (str "Fantasy") 1996 author2;
                   bookInfo (str "A Clash of Kings") (str "War") 1998 author2]
                  initialLibStatics
                  ltac:(vm_compute; discriminate)
                  ltac:(vm_compute; discriminate))).
Defined.

(** X24: once the books' counter has reached 2^53 it no longer
    advances: every book created from then on gets the id 2^53, so the
    ids of different books coincide, and the counter stays at 2^53. *)
Theorem newBooks_ids_collide :
  forall (infos : list BookInfo) (st : LibStatics),
    Book_nextId st = 2 ^ 53 ->
    (forall b, In b (fst (newBooks infos st)) -> book_id b = 2 ^ 53)
    /\ List.length (fst (newBooks infos st)) = List.length infos
    /\ Book_nextId (snd (newBooks infos st)) = 2 ^ 53.
Proof.
  induction infos as [|info infos IH]; intros st E.
  - cbn. repeat split; [intros b [] | exact E].
  - cbn [newBooks].
    destruct (new_Book info st) as [b st1] eqn:E1.
    unfold new_Book in E1. injection E1 as Eb Est.
    assert (C1 : Book_nextId st1 = 2 ^ 53).
    { subst st1. cbn [Book_nextId]. rewrite E. exact increment_stuck. }
    specialize (IH st1 C1). destruct (newBooks infos st1) as [bs st2].
    cbn [fst snd] in *. destruct IH as [I1 [I2 I3]]. repeat split.
    + intros x [<-|Hx]; [subst b; exact E | now apply I1].
    + cbn [List.length]. now rewrite I2.
    + exact I3.
Qed.

Lemma newBooks_ids_collide_witness :
  (forall b,
      In b (fst (newBooks
                   [bookInfo (str "Harry Potter") (str "Fantasy") 1997 author1;
                    bookInfo (str "Game of Thrones") (str "Fantasy") 1996 author2]
                   {| Book_nextId := 2 ^ 53; Author_nextId := 3;
                      lib_nextRef := 7 |})) ->
      book_id b = 2 ^ 53)
  /\ List.length
       (fst (newBooks
               [bookInfo (str "Harry Potter") (str "Fantasy") 1997 author1;
                bookInfo (str "Game of Thrones") (str "Fantasy") 1996 author2]
               {| Book_nextId := 2 ^ 53; Author_nextId := 3;
                  lib_nextRef := 7 |}))
     = 2%nat
  /\ Book_nextId
       (snd (newBooks
               [bookInfo (str "Harry Potter") (str "Fantasy") 1997 author1;
                bookInfo (str "Game of Thrones") (str "Fantasy") 1996 author2]
               {| Book_nextId := 2 ^ 53; Author_nextId := 3;
                  lib_nextRef := 7 |}))
     = 2 ^ 53.
Proof.
  apply (newBooks_ids_collide
           [bookInfo (str "Harry Potter") (str "Fantasy") 1997 author1;
            bookInfo (str "Game of Thrones") (str "Fantasy") 1996 author2]
           {| Book_nextId := 2 ^ 53; Author_nextId := 3; lib_nextRef := 7 |}).
  reflexivity.
Defined.

Lemma find_by_id_NoDup (bs : list Book) (b : Book) :
  NoDup (map book_id bs) -> In b bs ->
  find (fun book => book_id book =? book_id b) bs = Some b.
Proof.
  induction bs as [|x bs IH]; intros N Hin; [destruct Hin|].
  cbn [find]. cbn [map] in N. inversion N as [|? ? Hx N']. subst.
  destruct Hin as [->|Hin].
  - now rewrite Z.eqb_refl.
  - destruct (Z.eqb_spec (book_id x) (book_id b)) as [E|E].
    + exfalso. apply Hx. rewrite E. now apply in_map.
    + now apply IH.
Qed.

Lemma addBooks_all_succeed (bs : list Book) :
  forall (l : Library) (bs0 : list Book) (xs0 : list Author),
    books l = Some bs0 ->
    authors l = Some xs0 ->
    NoDup (map book_ref (bs0 ++ bs)) ->
    Z.of_nat (List.length (bs0 ++ bs)) <= maxBooks l ->
    addBooks bs l
    = {| name := name l; books := Some (bs0 ++ bs);
         authors := Some (xs0 ++ map book_author bs);
         maxBooks := maxBooks l |}.
Proof.
  unfold addBooks. induction bs as [|b bs IH]; intros l bs0 xs0 Hb Ha N Cap.
  - cbn. rewrite !app_nil_r. destruct l; cbn in *. now subst.
  - cbn [fold_left].
    assert (I : includesBook bs0 b = false).
    { apply includesBook_notin. rewrite map_app in N. cbn [map] in N.
      apply NoDup_remove_2 in N. rewrite in_app_iff in N. tauto. }
    rewrite length_app in Cap. cbn [List.length] in Cap.
    rewrite (addBook_success l b bs0 xs0 Hb Ha I) by lia.
    cbn [fst].
    rewrite (IH {| name := name l; books := Some (bs0 ++ [b]);
                   authors := Some (xs0 ++ [book_author b]);
                   maxBooks := maxBooks l |}
                (bs0 ++ [b]) (xs0 ++ [book_author b]) eq_refl eq_refl).
    + cbn. now rewrite <- !app_assoc.
    + now rewrite <- app_assoc.
    + cbn. rewrite <- app_assoc, length_app. cbn. lia.
Qed.

(** X9: while the books' counter stays within the range in which
    doubles count exactly (as in X8), books made by successive
    constructor calls and then added, in order, to a library that
    starts with two empty arrays and has room for all of them are all
    stored, their authors are listed in the same order, and getBookById
    finds each of them by its id. *)
Theorem constructed_books_retrievable :
  forall (infos : list BookInfo) (st : LibStatics) (nm : string) (cap : Z),
    - 2 ^ 53 <= Book_nextId st ->
    Book_nextId st + Z.of_nat (List.length infos) <= 2 ^ 53 ->
    Z.of_nat (List.length infos) <= cap ->
    let bs := fst (newBooks infos st) in
    let l := addBooks bs {| name := nm; books := Some []; authors := Some [];
                            maxBooks := cap |} in
    books l = Some bs
    /\ authors l = Some (map info_author infos)
    /\ forall b, In b bs -> getBookById (book_id b) l = Normal (Some b).
Proof.
  intros infos st nm cap Lo Hi Cap bs l.
  destruct (newBooks_fields infos st Lo Hi) as [I1 [I2 [I3 _]]].
  fold bs in I1, I2, I3.
  assert (Len : List.length bs = List.length infos).
  { rewrite <- (length_map book_ref bs), I2. apply length_seq. }
  assert (E : l = {| name := nm; books := Some bs;
                     authors := Some (map info_author infos);
                     maxBooks := cap |}).
  { unfold l.
    rewrite (addBooks_all_succeed bs
               {| name := nm; books := Some []; authors := Some [];
                  maxBooks := cap |} [] [] eq_refl eq_refl).
    - cbn. now rewrite I3.
    - cbn. rewrite I2. apply seq_NoDup.
    - cbn. lia. }
  rewrite E. cbn. repeat split.
  intros b Hin. unfold getBookById. cbn. f_equal.
  apply find_by_id_NoDup; [|exact Hin].
  rewrite I1. apply consecutiveFrom_NoDup.
Qed.

Lemma constructed_books_retrievable_witness :
  let infos := [bookInfo (str "Harry Potter") (str "Fantasy") 1997 author1;
                bookInfo (str "Game of Thrones") (str "Fantasy") 1996 author2] in
  let bs := fst (newBooks infos initialLibStatics) in
  let l := addBooks bs {| name := "City Library"; books := Some [];
                          authors := Some []; maxBooks := 100 |} in
  books l = Some bs
  /\ authors l = Some [author1; author2]
  /\ forall b, In b bs -> getBookById (book_id b) l = Normal (Some b).
Proof.
  apply (constructed_books_retrievable
           [bookInfo (str "Harry Potter") (str "Fantasy") 1997 author1;
            bookInfo (str "Game of Thrones") (str "Fantasy") 1996 author2]
           initialLibStatics "City Library" 100).
  - vm_compute. discriminate.
  - vm_compute. discriminate.
  - vm_compute. discriminate.
Defined.

(** ** The university roster: further properties *)

(** *** Group *)

Lemma includesStudent_true (ss : list Student) (s : Student) :
  includesStudent ss s = true <-> presentStudent ss s.
Proof.
  unfold includesStudent, presentStudent. rewrite existsb_exists.
  split; intros [x [H1 H2]]; exists x; split; trivial; now apply Nat.eqb_eq.
Qed.

Lemma includesStudent_notin (ss : list Student) (s : Student) :
  includesStudent ss s = false
  <-> ~ In (person_ref (student_person s)) (studentRefs ss).
Proof.
  unfold studentRefs. rewrite in_map_iff, <- not_true_iff_false,
    includesStudent_true.
  unfold presentStudent. split; intros H [x [H1 H2]]; apply H; exists x; tauto.
Qed.

Lemma set_students_same (g : Group) : set_students g (students g) = g.
Proof. now destruct g. Qed.

(** X10: addStudent(s) throws a UniversityError and leaves the group as
    it was when s is already a member by reference; otherwise it
    completes normally with s appended at the end.  Either way a roster
    without a repeated student object stays without one. *)
Theorem addStudent_spec :
  forall (g : Group) (s : Student),
    (presentStudent (students g) s ->
     isUniversityError (snd (addStudent s g)) /\ fst (addStudent s g) = g)
    /\ (~ presentStudent (students g) s ->
        addStudent s g = (set_students g (students g ++ [s]), Normal tt))
    /\ (NoDup (studentRefs (students g)) ->
        NoDup (studentRefs (students (fst (addStudent s g))))).
Proof.
  intros g s. unfold addStudent. split; [|split].
  - intros H. apply includesStudent_true in H. rewrite H. cbn.
    split; [now eexists | reflexivity].
  - intros H. rewrite <- includesStudent_true in H.
    apply not_true_is_false in H. now rewrite H.
  - intros N. destruct (includesStudent (students g) s) eqn:I; [exact N|].
    cbn. unfold push, studentRefs. rewrite map_app. apply NoDup_snoc.
    + exact N.
    + now apply includesStudent_notin.
Qed.

Lemma addStudent_spec_witness :
  (isUniversityError
     (snd (addStudent (sampleStudent 1 (Finite 0))
             (sampleGroup [sampleStudent 1 (Finite 0)])))
   /\ fst (addStudent (sampleStudent 1 (Finite 0))
             (sampleGroup [sampleStudent 1 (Finite 0)]))
      = sampleGroup [sampleStudent 1 (Finite 0)])
  /\ addStudent (sampleStudent 2 (Finite 0))
       (sampleGroup [sampleStudent 1 (Finite 0)])
     = (sampleGroup [sampleStudent 1 (Finite 0); sampleStudent 2 (Finite 0)],
        Normal tt)
  /\ NoDup (studentRefs
              (students (fst (addStudent (sampleStudent 2 (Finite 0))
                                (sampleGroup [sampleStudent 1 (Finite 0)]))))).
Proof.
  split; [|split].
  - apply (proj1 (addStudent_spec (sampleGroup [sampleStudent 1 (Finite 0)])
                    (sampleStudent 1 (Finite 0)))).
    exists (sampleStudent 1 (Finite 0)). split; [now left | reflexivity].
  - apply (proj1 (proj2 (addStudent_spec
                           (sampleGroup [sampleStudent 1 (Finite 0)])
                           (sampleStudent 2 (Finite 0))))).
    intros [x [[<-|[]] H]]. discriminate H.
  - apply (proj2 (proj2 (addStudent_spec
                           (sampleGroup [sampleStudent 1 (Finite 0)])
                           (sampleStudent 2 (Finite 0))))).
    repeat constructor. intros [].
Defined.

Lemma find_split {A : Type} (p : A -> bool) (xs : list A) (x : A) :
  find p xs = Some x ->
  exists pre post,
    xs = pre ++ x :: post /\ (forall y, In y pre -> p y = false) /\ p x = true.
Proof.
  induction xs as [|a xs IH]; [discriminate|]. cbn [find].
  destruct (p a) eqn:Pa.
  - intros E. injection E as <-. exists [], xs.
    repeat split; trivial. intros y [].
  - intros F. destruct (IH F) as [pre [post [E [Hpre Hx]]]].
    exists (a :: pre), post. subst xs. repeat split; trivial.
    intros y [<-|Hy]; [exact Pa | now apply Hpre].
Qed.

Lemma arrayGet_middle {A : Type} (pre post : list A) (x : A) :
  arrayGet (pre ++ x :: post) (Z.of_nat (List.length pre)) = Some x.
Proof.
  unfold arrayGet.
  destruct (Z.ltb_spec (Z.of_nat (List.length pre)) 0); [lia|].
  rewrite Nat2Z.id. clear. induction pre as [|y pre IH]; [reflexivity | exact IH].
Qed.

Lemma getStudentIdByGroup_found (g : Group) (n : Z)
  (pre post : list Student) (s : Student) :
  Z.of_nat (List.length (students g)) < 2 ^ 32 ->
  students g = pre ++ s :: post ->
  (forall x, In x pre -> (id (student_person x) =? n) = false) ->
  (id (student_person s) =? n) = true ->
  getStudentIdByGroup n g = Normal (Z.of_nat (List.length pre)).
Proof.
  intros Hlen E Hpre Hs. unfold getStudentIdByGroup, findIndex.
  rewrite E in *. rewrite findIndexFrom_first by assumption.
  rewrite Z.add_0_l.
  destruct (truthyNumber (bitNot (Z.of_nat (List.length pre)))) eqn:T;
    [reflexivity|].
  exfalso. apply bitNot_zero in T; [lia|].
  rewrite length_app in Hlen. cbn [List.length] in Hlen. lia.
Qed.

Lemma getStudentIdByGroup_missing (g : Group) (n : Z) :
  (forall x, In x (students g) -> (id (student_person x) =? n) = false) ->
  getStudentIdByGroup n g = Throw (UniversityError "Student not found in group").
Proof.
  intros H. unfold getStudentIdByGroup, findIndex.
  now rewrite findIndexFrom_none.
Qed.

Lemma getStudentById_find (g : Group) (n : Z) :
  Z.of_nat (List.length (students g)) < 2 ^ 32 ->
  getStudentById n g
  = match find (fun student => id (student_person student) =? n) (students g) with
    | Some s => Normal (Some s)
    | None => Throw (UniversityError "Student not found in group")
    end.
Proof.
  intros Hlen. unfold getStudentById.
  destruct (find _ (students g)) as [s|] eqn:F.
  - apply find_split in F as [pre [post [E [Hpre Hs]]]].
    rewrite (getStudentIdByGroup_found g n pre post s Hlen E Hpre Hs).
    cbn [bind]. now rewrite E, arrayGet_middle.
  - rewrite getStudentIdByGroup_missing; [reflexivity|].
    intros x Hx. exact (find_none _ _ F x Hx).
Qed.

Lemma removeStudentById_found (g : Group) (n : Z)
  (pre post : list Student) (s : Student) :
  Z.of_nat (List.length (students g)) < 2 ^ 32 ->
  students g = pre ++ s :: post ->
  (forall x, In x pre -> (id (student_person x) =? n) = false) ->
  (id (student_person s) =? n) = true ->
  removeStudentById n g = (set_students g (pre ++ post), Normal tt).
Proof.
  intros Hlen E Hpre Hs. unfold removeStudentById.
  rewrite (getStudentIdByGroup_found g n pre post s Hlen E Hpre Hs).
  now rewrite E, splice1_middle.
Qed.

(** X11: on a roster of a length an array can have, getStudentById(n)
    returns the first student of the roster whose id is n, never
    undefined, and throws a UniversityError when no student has id n. *)
Theorem getStudentById_spec :
  forall (g : Group) (n : Z),
    Z.of_nat (List.length (students g)) < 2 ^ 32 ->
    ((forall s, In s (students g) -> id (student_person s) <> n) ->
     isUniversityError (getStudentById n g))
    /\ (forall pre s post,
           students g = pre ++ s :: post ->
           (forall x, In x pre -> id (student_person x) <> n) ->
           id (student_person s) = n ->
           getStudentById n g = Normal (Some s))
    /\ getStudentById n g <> Normal None.
Proof.
  intros g n Hlen. rewrite (getStudentById_find g n Hlen). split; [|split].
  - intros H. destruct (find _ (students g)) as [s|] eqn:F; [|now eexists].
    apply find_some in F as [Hin E]. apply Z.eqb_eq in E.
    now destruct (H s Hin).
  - intros pre s post E Hpre Hs. rewrite E, find_app_notin.
    + cbn [find]. apply Z.eqb_eq in Hs. now rewrite Hs.
    + intros x Hx. apply Z.eqb_neq. now apply Hpre.
  - destruct (find _ (students g)); discriminate.
Qed.

Lemma getStudentById_spec_witness :
  isUniversityError
    (getStudentById 7 (sampleGroup [sampleStudent 1 (Finite 0);
                                    sampleStudent 2 (Finite 0)]))
  /\ getStudentById 2 (sampleGroup [sampleStudent 1 (Finite 0);
                                    sampleStudent 2 (Finite 0)])
     = Normal (Some (sampleStudent 2 (Finite 0))).
Proof.
  pose proof (getStudentById_spec
                (sampleGroup [sampleStudent 1 (Finite 0);
                              sampleStudent 2 (Finite 0)])) as H.
  split.
  - apply (proj1 (H 7 ltac:(vm_compute; reflexivity))).
    intros s [<-|[<-|[]]]; discriminate.
  - apply (proj1 (proj2 (H 2 ltac:(vm_compute; reflexivity)))
             [sampleStudent 1 (Finite 0)] (sampleStudent 2 (Finite 0)) []).
    + reflexivity.
    + intros x [<-|[]]. discriminate.
    + reflexivity.
Defined.

(** X12: adding a student and then removing it by id gives back the
    group as it was: when s is not yet a member, no member has the id
    of s, and the roster has room within the length an array can have,
    addStudent(s) followed by removeStudentById(s.id) completes
    normally and restores the roster. *)
Theorem addStudent_then_removeStudentById :
  forall (g : Group) (s : Student),
    Z.of_nat (List.length (students g)) + 1 < 2 ^ 32 ->
    ~ presentStudent (students g) s ->
    (forall x, In x (students g) -> id (student_person x) <> id (student_person s)) ->
    removeStudentById (id (student_person s)) (fst (addStudent s g))
    = (g, Normal tt).
Proof.
  intros g s Hlen NP Fresh. unfold addStudent.
  rewrite <- includesStudent_true in NP. apply not_true_is_false in NP.
  rewrite NP. cbn [fst]. unfold push.
  rewrite (removeStudentById_found _ (id (student_person s))
             (students g) [] s).
  - cbn. rewrite app_nil_r. now destruct g.
  - cbn. rewrite length_app. cbn. lia.
  - reflexivity.
  - intros x Hx. apply Z.eqb_neq. now apply Fresh.
  - apply Z.eqb_refl.
Qed.

Lemma addStudent_then_removeStudentById_witness :
  removeStudentById 2
    (fst (addStudent (sampleStudent 2 (Finite 0))
            (sampleGroup [sampleStudent 1 (Finite 0)])))
  = (sampleGroup [sampleStudent 1 (Finite 0)], Normal tt).
Proof.
  apply (addStudent_then_removeStudentById
           (sampleGroup [sampleStudent 1 (Finite 0)])
           (sampleStudent 2 (Finite 0))).
  - vm_compute. reflexivity.
  - intros [x [[<-|[]] H]]. discriminate H.
  - intros x [<-|[]]. discriminate.
Defined.

Lemma find_remove_other {A : Type} (p : A -> bool) (pre post : list A) (x : A) :
  p x = false -> find p (pre ++ post) = find p (pre ++ x :: post).
Proof.
  intros H. induction pre as [|a pre IH]; cbn [app find].
  - now rewrite H.
  - destruct (p a); [reflexivity | exact IH].
Qed.

(** X13: where the ids of a roster are pairwise different (and its
    length is one an array can have), removeStudentById(s.id) for a
    member s completes normally, after it getStudentById(s.id) throws a
    UniversityError, and getStudentById of every other id returns what
    it returned before. *)
Theorem removeStudentById_then_getStudentById :
  forall (g : Group) (s : Student),
    Z.of_nat (List.length (students g)) < 2 ^ 32 ->
    NoDup (studentIds (students g)) ->
    In s (students g) ->
    let g' := fst (removeStudentById (id (student_person s)) g) in
    snd (removeStudentById (id (student_person s)) g) = Normal tt
    /\ isUniversityError (getStudentById (id (student_person s)) g')
    /\ forall m, m <> id (student_person s) ->
                 getStudentById m g' = getStudentById m g.
Proof.
  intros g s Hlen N Hin.
  apply in_split in Hin as [pre [post E]].
  assert (Others : forall x, In x (pre ++ post) ->
                             (id (student_person x) =? id (student_person s)) = false).
  { unfold studentIds in N. rewrite E, map_app in N. cbn [map] in N.
    apply NoDup_remove_2 in N. intros x Hx. apply Z.eqb_neq. intros Eq.
    apply N. rewrite <- map_app. apply in_map_iff. exists x. now split. }
  assert (R : removeStudentById (id (student_person s)) g
              = (set_students g (pre ++ post), Normal tt)).
  { apply (removeStudentById_found g _ pre post s Hlen E).
    - intros x Hx. apply Others, in_or_app. now left.
    - apply Z.eqb_refl. }
  intros g'. unfold g'. rewrite R. cbn [fst snd].
  assert (Hlen' : Z.of_nat (List.length (students (set_students g (pre ++ post))))
                  < 2 ^ 32).
  { cbn. rewrite E, length_app in Hlen. cbn [List.length] in Hlen.
    rewrite length_app. lia. }
  split; [reflexivity|]. split.
  - rewrite (getStudentById_find _ _ Hlen'). cbn [students set_students].
    destruct (find _ (pre ++ post)) as [x|] eqn:F; [|now eexists].
    apply find_some in F as [Hx Ex]. rewrite (Others x Hx) in Ex. discriminate.
  - intros m Hm. rewrite (getStudentById_find _ _ Hlen'),
      (getStudentById_find _ _ Hlen).
    cbn [students set_students]. rewrite E.
    rewrite (find_remove_other _ pre post s); [reflexivity|].
    apply Z.eqb_neq. congruence.
Qed.

Lemma removeStudentById_then_getStudentById_witness :
  isUniversityError
    (getStudentById 1
       (fst (removeStudentById 1
               (sampleGroup [sampleStudent 1 (Finite 0);
                             sampleStudent 2 (Finite 0)]))))
  /\ getStudentById 2
       (fst (removeStudentById 1
               (sampleGroup [sampleStudent 1 (Finite 0);
                             sampleStudent 2 (Finite 0)])))
     = Normal (Some (sampleStudent 2 (Finite 0))).
Proof.
  destruct (removeStudentById_then_getStudentById
              (sampleGroup [sampleStudent 1 (Finite 0);
                            sampleStudent 2 (Finite 0)])
              (sampleStudent 1 (Finite 0))) as [_ [H1 H2]].
  - vm_compute. reflexivity.
  - repeat constructor; cbn; intuition discriminate.
  - now left.
  - split; [exact H1|]. exact (eq_trans (H2 2 ltac:(discriminate)) eq_refl).
Defined.

(** *** Student *)

Lemma sumCredits_snoc (cs : list Course) (c : Course) :
  sumCredits (cs ++ [c]) = sumCredits cs + credits c.
Proof.
  unfold sumCredits. induction cs as [|x cs IH]; cbn in *; [lia|].
  rewrite IH. lia.
Qed.

Lemma sumAbsCredits_app (cs ds : list Course) :
  sumAbsCredits (cs ++ ds) = sumAbsCredits cs + sumAbsCredits ds.
Proof.
  unfold sumAbsCredits. induction cs as [|x cs IH]; cbn in *; [lia|].
  rewrite IH. lia.
Qed.

Lemma sumAbsCredits_nonneg (cs : list Course) : 0 <= sumAbsCredits cs.
Proof.
  unfold sumAbsCredits. induction cs as [|x cs IH]; cbn in *; lia.
Qed.

Lemma sumCredits_bound (cs : list Course) :
  Z.abs (sumCredits cs) <= sumAbsCredits cs.
Proof.
  unfold sumCredits, sumAbsCredits. induction cs as [|x cs IH]; cbn in *; lia.
Qed.

Lemma studentCall_enrolled (k : StudentCall) (s : Student) :
  exists rest, enrolledCourses (studentCall k s) = enrolledCourses s ++ rest.
Proof.
  destruct k as [c|st]; cbn.
  - unfold enrollCourse. destruct (negb _); cbn.
    + exists []. now rewrite app_nil_r.
    + now exists [c].
  - exists []. now rewrite app_nil_r.
Qed.

Lemma studentCalls_enrolled (ks : list StudentCall) (s : Student) :
  exists rest, enrolledCourses (studentCalls ks s) = enrolledCourses s ++ rest.
Proof.
  unfold studentCalls. revert s; induction ks as [|k ks IH]; intros s; cbn.
  - exists []. now rewrite app_nil_r.
  - destruct (IH (studentCall k s)) as [r2 E2].
    destruct (studentCall_enrolled k s) as [r1 E1].
    exists (r1 ++ r2). now rewrite E2, E1, app_assoc.
Qed.

Lemma studentCall_keeps_sum (k : StudentCall) (s : Student) :
  getTotalCredits s = IntNum (sumCredits (getEnrolledCourses s)) ->
  sumAbsCredits (getEnrolledCourses (studentCall k s)) <= 2 ^ 53 ->
  getTotalCredits (studentCall k s)
  = IntNum (sumCredits (getEnrolledCourses (studentCall k s))).
Proof.
  unfold getTotalCredits, getEnrolledCourses. intros H B.
  destruct k as [c|st]; cbn [studentCall] in *; [|exact H].
  unfold enrollCourse in *. destruct (negb _); cbn [fst] in *; [exact H|].
  cbn [set_enrollment enrolledCourses academicPerformance totalCredits] in *.
  unfold push in *. rewrite sumCredits_snoc, H. apply intPlus_exact.
  rewrite <- sumCredits_snoc.
  pose proof (sumCredits_bound (enrolledCourses s ++ [c])). lia.
Qed.

Lemma studentCall_frame (k : StudentCall) (s : Student) :
  getAverageScore (studentCall k s) = getAverageScore s
  /\ student_person (studentCall k s) = student_person s.
Proof.
  destruct k as [c|st]; cbn; [|split; reflexivity].
  unfold enrollCourse. destruct (negb _); cbn; split; reflexivity.
Qed.

(** X14: for a student made by the constructor, after any run of
    enrollCourse and updateAcademicStatus calls (failed enrolments
    included) getTotalCredits is the sum of the credits of the courses
    that getEnrolledCourses lists, provided the magnitudes of those
    credits add up to at most 2^53, the range in which sums of doubles
    are exact. *)
Theorem totalCredits_is_sum_of_enrolled :
  forall (info : PersonInfo) (st : UniStatics) (ks : list StudentCall),
    let s := studentCalls ks (fst (new_Student info st)) in
    sumAbsCredits (getEnrolledCourses s) <= 2 ^ 53 ->
    getTotalCredits s = IntNum (sumCredits (getEnrolledCourses s)).
Proof.
  intros info st ks.
  assert (G : forall s0,
             getTotalCredits s0 = IntNum (sumCredits (getEnrolledCourses s0)) ->
             sumAbsCredits (getEnrolledCourses (studentCalls ks s0)) <= 2 ^ 53 ->
             getTotalCredits (studentCalls ks s0)
             = IntNum (sumCredits (getEnrolledCourses (studentCalls ks s0)))).
  { induction ks as [|k ks IH]; intros s0 H B.
    - exact H.
    - change (studentCalls (k :: ks) s0) with (studentCalls ks (studentCall k s0))
        in *.
      apply IH; [|exact B]. apply studentCall_keeps_sum; [exact H|].
      destruct (studentCalls_enrolled ks (studentCall k s0)) as [rest E].
      unfold getEnrolledCourses in *. rewrite E, sumAbsCredits_app in B.
      pose proof (sumAbsCredits_nonneg rest). lia. }
  intros s B. apply G; [reflexivity | exact B].
Qed.

Lemma totalCredits_is_sum_of_enrolled_witness :
  getTotalCredits
    (studentCalls [CallEnroll sampleCourse;
                   CallUpdateStatus AcademicStatus_academicLeave;
                   CallEnroll oneCreditCourse;
                   CallUpdateStatus AcademicStatus_active;
                   CallEnroll oneCreditCourse]
       (fst (new_Student sampleInfo initialUniStatics)))
  = IntNum 6.
Proof.
  apply (totalCredits_is_sum_of_enrolled sampleInfo initialUniStatics
           [CallEnroll sampleCourse;
            CallUpdateStatus AcademicStatus_academicLeave;
            CallEnroll oneCreditCourse;
            CallUpdateStatus AcademicStatus_active;
            CallEnroll oneCreditCourse]).
  vm_compute. discriminate.
Defined.

(** Beyond that range the total and the sum part: a new student who
    enrols in a course of 2^53 credits and then in a course of one
    credit has both courses listed, credits adding up to 2^53 + 1, and
    a total of 2^53. *)
Example totalCredits_rounds :
  let s := studentCalls [CallEnroll heavyCourse; CallEnroll oneCreditCourse]
             (fst (new_Student sampleInfo initialUniStatics)) in
  getEnrolledCourses s = [heavyCourse; oneCreditCourse]
  /\ sumCredits (getEnrolledCourses s) = 2 ^ 53 + 1
  /\ getTotalCredits s = IntNum (2 ^ 53).
Proof.
  repeat split; vm_compute; reflexivity.
Qed.

(** X15: no call changes a student's score or identity: after any run
    of enrollCourse and updateAcademicStatus calls getAverageScore
    returns what it returned before, and the person fields (id, names,
    role and the rest) are the same. *)
Theorem studentCalls_keep_score :
  forall (ks : list StudentCall) (s : Student),
    getAverageScore (studentCalls ks s) = getAverageScore s
    /\ student_person (studentCalls ks s) = student_person s.
Proof.
  unfold studentCalls. induction ks as [|k ks IH]; intros s; cbn.
  - split; reflexivity.
  - destruct (IH (studentCall k s)) as [H1 H2].
    destruct (studentCall_frame k s) as [F1 F2].
    rewrite H1, H2, F1, F2. split; reflexivity.
Qed.

(** *** Teacher *)

Lemma filter_id {A : Type} (p : A -> bool) (xs : list A) :
  (forall x, In x xs -> p x = true) -> filter p xs = xs.
Proof.
  induction xs as [|x xs IH]; intros H; cbn; [reflexivity|].
  rewrite (H x (or_introl eq_refl)), IH; [reflexivity|].
  intros y Hy. apply H. now right.
Qed.

Lemma filter_filter_same {A : Type} (p : A -> bool) (xs : list A) :
  filter p (filter p xs) = filter p xs.
Proof.
  apply filter_id. intros x Hx. now apply filter_In in Hx.
Qed.

(** X16: removeCourse(name) removes every course of that name, however
    many there are and whichever objects they are, and keeps the other
    courses; calling it twice is the same as calling it once; and
    assignCourse(c) followed by removeCourse(c.name) gives back the
    teacher as it was when no course of that name was assigned
    before. *)
Theorem removeCourse_spec :
  forall (t : Teacher) (nm : string),
    (forall c, In c (getCourses (removeCourse nm t))
               <-> In c (getCourses t) /\ course_name c <> nm)
    /\ removeCourse nm (removeCourse nm t) = removeCourse nm t
    /\ (forall c,
           course_name c = nm ->
           (forall x, In x (getCourses t) -> course_name x <> nm) ->
           removeCourse nm (assignCourse c t) = t).
Proof.
  intros t nm. unfold getCourses, removeCourse, assignCourse. cbn.
  split; [|split].
  - intros c. rewrite filter_In, negb_true_iff, String.eqb_neq. reflexivity.
  - now rewrite filter_filter_same.
  - intros c Hc Fresh. unfold push. rewrite filter_app. cbn.
    apply String.eqb_eq in Hc. rewrite Hc. cbn. rewrite app_nil_r.
    rewrite filter_id; [now destruct t|].
    intros x Hx. apply negb_true_iff, String.eqb_neq. now apply Fresh.
Qed.

Lemma removeCourse_spec_witness :
  removeCourse "Optics" (assignCourse (courseNamed 2 "Optics") sampleTeacher)
  = sampleTeacher.
Proof.
  apply (proj2 (proj2 (removeCourse_spec sampleTeacher "Optics"))
           (courseNamed 2 "Optics")).
  - reflexivity.
  - intros x [].
Defined.

(** *** University *)

Lemma filter_snoc {A : Type} (p : A -> bool) (xs : list A) (x : A) :
  filter p (xs ++ [x]) = if p x then filter p xs ++ [x] else filter p xs.
Proof.
  rewrite filter_app. cbn. destruct (p x); [reflexivity | apply app_nil_r].
Qed.

(** X17: for role "student" or "teacher", getAllPeopleByRole after
    addPerson(o) returns the earlier result with o appended at the end
    when the stored role of o is that role, and the earlier result
    unchanged when it is not. *)
Theorem addPerson_then_getAllPeopleByRole :
  forall (u : University) (o : PersonObject) (r : string),
    r = Role_student \/ r = Role_teacher ->
    exists xs,
      getAllPeopleByRole r u = Normal xs
      /\ getAllPeopleByRole r (addPerson o u)
         = Normal (if String.eqb (role (asPerson o)) r then xs ++ [o] else xs).
Proof.
  intros u o r [-> | ->]; unfold getAllPeopleByRole, addPerson; cbn;
    eexists; (split; [reflexivity|]); unfold push; now rewrite filter_snoc.
Qed.

Lemma addPerson_then_getAllPeopleByRole_witness :
  exists xs,
    getAllPeopleByRole "teacher" sampleUniversity = Normal xs
    /\ getAllPeopleByRole "teacher"
         (addPerson (AStudent (sampleStudent 3 (Finite 0))) sampleUniversity)
       = Normal (if String.eqb
                      (role (asPerson (AStudent (sampleStudent 3 (Finite 0)))))
                      "teacher"
                 then xs ++ [AStudent (sampleStudent 3 (Finite 0))] else xs).
Proof.
  apply (addPerson_then_getAllPeopleByRole sampleUniversity
           (AStudent (sampleStudent 3 (Finite 0))) "teacher").
  right. reflexivity.
Defined.

Lemma filter_two_way {A : Type} (p q : A -> bool) (xs : list A) :
  (forall x, In x xs -> (p x = true /\ q x = false) \/ (p x = false /\ q x = true)) ->
  Permutation (filter p xs ++ filter q xs) xs.
Proof.
  induction xs as [|x xs IH]; intros H; cbn; [constructor|].
  assert (IH' : Permutation (filter p xs ++ filter q xs) xs).
  { apply IH. intros y Hy. apply H. now right. }
  destruct (H x (or_introl eq_refl)) as [[-> ->] | [-> ->]].
  - cbn. now constructor.
  - apply Permutation_sym, Permutation_cons_app, Permutation_sym, IH'.
Qed.

(** X18: when every stored person has role "student" or "teacher", the
    two role queries split the people: the students followed by the
    teachers are a rearrangement of the stored list (nobody lost,
    nobody twice); and in any university every person returned for a
    role has that role stored. *)
Theorem getAllPeopleByRole_partition :
  forall (u : University),
    exists ss ts,
      getAllPeopleByRole Role_student u = Normal ss
      /\ getAllPeopleByRole Role_teacher u = Normal ts
      /\ (forall o, In o ss -> role (asPerson o) = Role_student)
      /\ (forall o, In o ts -> role (asPerson o) = Role_teacher)
      /\ ((forall o, In o (people u) ->
                     role (asPerson o) = Role_student
                     \/ role (asPerson o) = Role_teacher) ->
          Permutation (ss ++ ts) (people u)).
Proof.
  intros u. unfold getAllPeopleByRole. cbn.
  eexists; eexists. split; [reflexivity|]. split; [reflexivity|].
  split; [|split].
  - intros o H. apply filter_In in H as [_ H]. now apply String.eqb_eq.
  - intros o H. apply filter_In in H as [_ H]. now apply String.eqb_eq.
  - intros H. apply filter_two_way. intros o Ho.
    destruct (H o Ho) as [E | E]; rewrite E; [left | right]; split; reflexivity.
Qed.

Lemma getAllPeopleByRole_partition_witness :
  exists ss ts,
    getAllPeopleByRole Role_student sampleUniversity = Normal ss
    /\ getAllPeopleByRole Role_teacher sampleUniversity = Normal ts
    /\ Permutation (ss ++ ts) (people sampleUniversity).
Proof.
  destruct (getAllPeopleByRole_partition sampleUniversity)
    as [ss [ts [H1 [H2 [_ [_ H5]]]]]].
  exists ss, ts. split; [exact H1|]. split; [exact H2|]. apply H5.
  intros o [<-|[<-|[<-|[]]]]; cbn; tauto.
Defined.

(** X19: findGroupByCourse on a university without groups returns
    undefined; after addGroup(g) it returns g for the course of g when
    no earlier group is bound to that course object; and whatever it
    found before addGroup it still finds afterwards (the first group
    bound to a course is never shadowed by a later one). *)
Theorem addGroup_then_findGroupByCourse :
  forall (u : University) (g : Group),
    (forall nm c, findGroupByCourse c (new_University nm) = None)
    /\ ((forall g', In g' (groups u) ->
                    course_ref (course g') <> course_ref (course g)) ->
        findGroupByCourse (course g) (addGroup g u) = Some g)
    /\ (forall c g0, findGroupByCourse c u = Some g0 ->
                     findGroupByCourse c (addGroup g u) = Some g0).
Proof.
  intros u g. unfold findGroupByCourse, addGroup, push. cbn.
  split; [reflexivity|]. split.
  - intros H. rewrite find_app_notin.
    + cbn. now rewrite Nat.eqb_refl.
    + intros x Hx. apply Nat.eqb_neq. now apply H.
  - intros c g0 F. apply find_split in F as [pre [post [E [Hpre Hg]]]].
    rewrite E, <- app_assoc, find_app_notin by exact Hpre.
    cbn. now rewrite Hg.
Qed.

Lemma addGroup_then_findGroupByCourse_witness :
  findGroupByCourse sampleCourse
    (addGroup (sampleGroup []) (new_University "KPI"))
  = Some (sampleGroup []).
Proof.
  apply (proj1 (proj2 (addGroup_then_findGroupByCourse
                         (new_University "KPI") (sampleGroup [])))).
  intros g' [].
Defined.

(** *** Identifiers of people *)

Lemma construct_fields (n : NewPerson) (st : UniStatics) :
  id (asPerson (fst (construct n st))) = Person_nextId st
  /\ person_ref (asPerson (fst (construct n st))) = uni_nextRef st
  /\ role (asPerson (fst (construct n st))) = roleOf n
  /\ Person_nextId (snd (construct n st)) = increment (Person_nextId st)
  /\ uni_nextRef (snd (construct n st)) = S (uni_nextRef st).
Proof. destruct n; cbn; repeat split. Qed.

Lemma constructAll_fields (ns : list NewPerson) (st : UniStatics) :
  - 2 ^ 53 <= Person_nextId st ->
  Person_nextId st + Z.of_nat (List.length ns) <= 2 ^ 53 ->
  map (fun o => id (asPerson o)) (fst (constructAll ns st))
  = consecutiveFrom (Person_nextId st) (List.length ns)
  /\ map (fun o => person_ref (asPerson o)) (fst (constructAll ns st))
     = seq (uni_nextRef st) (List.length ns)
  /\ map (fun o => role (asPerson o)) (fst (constructAll ns st))
     = map roleOf ns
  /\ Person_nextId (snd (constructAll ns st))
     = Person_nextId st + Z.of_nat (List.length ns).
Proof.
  revert st; induction ns as [|n ns IH]; intros st Lo Hi.
  - cbn. repeat split. lia.
  - cbn [constructAll]. cbn [List.length] in Hi.
    destruct (construct_fields n st) as [C1 [C2 [C3 [C4 C5]]]].
    rewrite increment_exact in C4 by lia.
    destruct (construct n st) as [o st1]. cbn [fst snd] in *.
    specialize (IH st1 ltac:(lia) ltac:(lia)).
    destruct (constructAll ns st1) as [os st2].
    cbn [fst snd] in *. cbn [map List.length seq].
    rewrite consecutiveFrom_cons.
    destruct IH as [I1 [I2 [I3 I4]]].
    rewrite I1, I2, I3, I4, C1, C2, C3, C4, C5. repeat split. lia.
Qed.

(** X20: teachers and students draw their ids from one counter: while
    that counter stays within the range in which doubles count exactly
    (from a counter of at least -2^53, through a run that ends at 2^53
    or below; the fresh program starts at 1), the people created by
    successive Teacher and Student constructor calls carry consecutive
    ids in creation order, starting at the value of the counter before
    the run, whatever the mix of roles, so their ids are pairwise
    different; each is a new object, and each stores the role of its
    class. *)
Theorem constructAll_ids :
  forall (ns : list NewPerson) (st : UniStatics),
    - 2 ^ 53 <= Person_nextId st ->
    Person_nextId st + Z.of_nat (List.length ns) <= 2 ^ 53 ->
    map (fun o => id (asPerson o)) (fst (constructAll ns st))
    = consecutiveFrom (Person_nextId st) (List.length ns)
    /\ NoDup (map (fun o => id (asPerson o)) (fst (constructAll ns st)))
    /\ NoDup (map (fun o => person_ref (asPerson o)) (fst (constructAll ns st)))
    /\ map (fun o => role (asPerson o)) (fst (constructAll ns st))
       = map roleOf ns
    /\ Person_nextId (snd (constructAll ns st))
       = Person_nextId st + Z.of_nat (List.length ns).
Proof.
  intros ns st Lo Hi.
  destruct (constructAll_fields ns st Lo Hi) as [I1 [I2 [I3 I4]]].
  repeat split; try assumption.
  - rewrite I1. apply consecutiveFrom_NoDup.
  - rewrite I2. apply seq_NoDup.
Qed.

Lemma constructAll_ids_witness :
  map (fun o => id (asPerson o))
    (fst (constructAll [NewStudent sampleInfo; NewTeacher sampleInfo None;
                        NewStudent sampleInfo] initialUniStatics))
  = [1; 2; 3].
Proof.
  apply (proj1 (constructAll_ids
                  [NewStudent sampleInfo; NewTeacher sampleInfo None;
                   NewStudent sampleInfo] initialUniStatics
                  ltac:(vm_compute; discriminate)
                  ltac:(vm_compute; discriminate))).
Defined.

(** X25: once the people's counter has reached 2^53 it no longer
    advances: every teacher and student created from then on gets the
    id 2^53, so different people share an id, and the counter stays at
    2^53. *)
Theorem constructAll_ids_collide :
  forall (ns : list NewPerson) (st : UniStatics),
    Person_nextId st = 2 ^ 53 ->
    (forall o, In o (fst (constructAll ns st)) -> id (asPerson o) = 2 ^ 53)
    /\ List.length (fst (constructAll ns st)) = List.length ns
    /\ Person_nextId (snd (constructAll ns st)) = 2 ^ 53.
Proof.
  induction ns as [|n ns IH]; intros st E.
  - cbn. repeat split; [intros o [] | exact E].
  - cbn [constructAll].
    destruct (construct_fields n st) as [C1 [_ [_ [C4 _]]]].
    rewrite E in C4. rewrite increment_stuck in C4.
    destruct (construct n st) as [o st1]. cbn [fst snd] in *.
    specialize (IH st1 C4). destruct (constructAll ns st1) as [os st2].
    cbn [fst snd] in *. destruct IH as [I1 [I2 I3]]. repeat split.
    + intros x [<-|Hx]; [now rewrite C1 | now apply I1].
    + cbn [List.length]. now rewrite I2.
    + exact I3.
Qed.

Lemma constructAll_ids_collide_witness :
  (forall o,
      In o (fst (constructAll [NewStudent sampleInfo; NewStudent sampleInfo]
                   {| Person_nextId := 2 ^ 53; uni_nextRef := 4 |})) ->
      id (asPerson o) = 2 ^ 53)
  /\ List.length
       (fst (constructAll [NewStudent sampleInfo; NewStudent sampleInfo]
               {| Person_nextId := 2 ^ 53; uni_nextRef := 4 |}))
     = 2%nat
  /\ Person_nextId
       (snd (constructAll [NewStudent sampleInfo; NewStudent sampleInfo]
               {| Person_nextId := 2 ^ 53; uni_nextRef := 4 |}))
     = 2 ^ 53.
Proof.
  apply (constructAll_ids_collide [NewStudent sampleInfo; NewStudent sampleInfo]
           {| Person_nextId := 2 ^ 53; uni_nextRef := 4 |}).
  reflexivity.
Defined.

(** *** Age, continued *)

Lemma beforeBirthday_dec (today birth : Date) :
  { beforeBirthday today birth } + { ~ beforeBirthday today birth }.
Proof.
  unfold beforeBirthday.
  destruct (Z_lt_dec (getMonth today) (getMonth birth));
  destruct (Z.eq_dec (getMonth today) (getMonth birth));
  destruct (Z_lt_dec (getDate today) (getDate birth));
    (left; lia) || (right; lia).
Qed.

Lemma age_cases (today : Date) (p : Person) :
  (beforeBirthday today (birthDay p)
   /\ age today p = getFullYear today - getFullYear (birthDay p) - 1)
  \/ (~ beforeBirthday today (birthDay p)
      /\ age today p = getFullYear today - getFullYear (birthDay p)).
Proof.
  rewrite age_unfold.
  destruct (beforeBirthday_dec today (birthDay p)) as [B|B].
  - left. split; [exact B|]. apply beforeBirthday_true in B. rewrite B. lia.
  - right. split; [exact B|]. rewrite <- beforeBirthday_true in B.
    apply not_true_is_false in B. rewrite B. lia.
Qed.

(** X21: the age is non-negative exactly when the birth date is not
    after the current date in calendar order; for a birth date in the
    future the getter returns a negative number. *)
Theorem age_nonnegative_iff :
  forall (today : Date) (p : Person),
    0 <= age today p <-> dateLe (birthDay p) today.
Proof.
  intros today p. unfold dateLe.
  destruct (age_cases today p) as [[B E] | [B E]]; rewrite E;
    unfold beforeBirthday in B; lia.
Qed.

(** X22: the age never decreases as the current date advances: for two
    current dates in calendar order the getter returns at the earlier
    one at most what it returns at the later one. *)
Theorem age_monotone :
  forall (t1 t2 : Date) (p : Person),
    dateLe t1 t2 -> age t1 p <= age t2 p.
Proof.
  intros t1 t2 p L. unfold dateLe in L.
  destruct (age_cases t1 p) as [[B1 E1] | [B1 E1]];
  destruct (age_cases t2 p) as [[B2 E2] | [B2 E2]];
    rewrite E1, E2; unfold beforeBirthday in B1, B2; lia.
Qed.

Lemma age_monotone_witness :
  age {| getFullYear := 2024; getMonth := 5; getDate := 14 |}
      (samplePerson 1 Role_student)
  <= age newYearsEve (samplePerson 1 Role_student).
Proof.
  apply (age_monotone {| getFullYear := 2024; getMonth := 5; getDate := 14 |}
           newYearsEve (samplePerson 1 Role_student)).
  unfold dateLe. cbn. lia.
Defined.
